(** * Research_Agent: the research pipeline of [AI_Assistant_App.py]

    A shallow embedding of the Streamlit script: the cached tool
    initialiser, the two agent definitions, the composition of the two
    tasks, the submission to the crew engine and the handler of the
    "Start Research" button, followed by the properties of the design
    specification that concern them.

    The script is effectful: it creates client objects, renders page
    elements, calls an external engine and catches exceptions.  Effects are
    threaded through a small state-and-exception monad over a [Process]
    record; the external collaborators (the model and search factories, the
    CrewAI constructors and the engine) are a parameter of the development. *)

From Stdlib Require Import String Ascii List QArith_base.
From stdpp Require Import base option list gmap strings.

Local Open Scope string_scope.
Local Open Scope list_scope.
Local Set Warnings "-register-all".

(** ** Data model *)

(** The handle returned by [ChatOpenAI(model=, temperature=, openai_api_key=)].
    [llm_id] is the identity of the Python object. *)
Record LLM : Type := mkLLM {
  llm_id : nat;
  llm_model : string;
  llm_temperature : Q;
  llm_openai_api_key : string
}.

(** The handle returned by [SerperDevTool(api_key=)]. *)
Record SearchTool : Type := mkSearchTool {
  tool_id : nat;
  tool_api_key : string
}.

(** The tuple [llm, search_tool] returned by [initialize_tools]. *)
Definition ToolHandles : Type := (LLM * SearchTool)%type.

(** The keyword arguments of [Agent(...)]. *)
Record AgentSpec : Type := mkAgent {
  role : string;
  goal : string;
  backstory : string;
  verbose : bool;
  memory : bool;
  tools : list SearchTool;
  llm : LLM
}.

(** The keyword arguments of [Task(...)].  [async_execution] and [context]
    are optional: [None] is a keyword that the call does not pass. *)
Inductive TaskSpec : Type := mkTask {
  description : string;
  agent : AgentSpec;
  expected_output : string;
  async_execution : option bool;
  context : option (list TaskSpec)
}.

(** The keyword arguments of [Crew(agents=, tasks=)]. *)
Record CrewSpec : Type := mkCrew {
  agents : list AgentSpec;
  tasks : list TaskSpec
}.

(** A caught Python exception; [str] is [str(e)]. *)
Record Exception : Type := mkException { str : string }.

(** What a run leaves behind, in order: the page elements rendered through
    [st.*], the calls of [crew.kickoff], and a ghost mark for each entry
    into the body of [run_research_pipeline]. *)
Inductive Event : Type :=
| Warning (body : string)
| Error (body : string)
| Success (body : string)
| Markdown (body : string) (unsafe_allow_html : bool)
| Divider
| Spinner (text : string)
| Entered_run_research_pipeline
    (topic : string) (include_news include_academic : bool) (output_format : string)
| Kickoff (crew : CrewSpec) (inputs : gmap string string).

(** The state of the Streamlit server process: the counter that gives
    identities to new client objects, the store behind
    [@st.cache_resource], keyed by the argument triple of
    [initialize_tools], and the event log. *)
Record Process : Type := mkProcess {
  next_id : nat;
  cache : gmap (string * string * string) ToolHandles;
  log : list Event
}.

Definition fresh_process : Process :=
  {| next_id := 0; cache := ∅; log := [] |}.

(** The widget values of one script run (the module-level globals). *)
Record Widgets : Type := mkWidgets {
  openai_api_key : string;
  serper_api_key : string;
  selected_model : string;
  include_news : bool;
  include_academic : bool;
  output_format : string;
  topic : string
}.

(** The external collaborators.  A constructor either accepts its
    arguments or raises; the engine's [kickoff] either raises or returns the
    final text, and may depend on what happened before in the process. *)
Record Collaborators : Type := mkCollaborators {
  ChatOpenAI_raises : string -> Q -> string -> option Exception;
  SerperDevTool_raises : string -> option Exception;
  Agent_raises : AgentSpec -> option Exception;
  Task_raises : TaskSpec -> option Exception;
  Crew_raises : CrewSpec -> option Exception;
  kickoff_returns : list Event -> CrewSpec -> gmap string string -> Exception + string
}.

(** ** The state-and-exception monad *)

Inductive Outcome (A : Type) : Type :=
| Returned (a : A)
| Raised (e : Exception).
Arguments Returned {A} a.
Arguments Raised {A} e.

Definition M (A : Type) : Type := Process -> Outcome A * Process.

Definition ret {A : Type} (a : A) : M A := fun s => (Returned a, s).

Definition raise {A : Type} (e : Exception) : M A := fun s => (Raised e, s).

Definition bind {A B : Type} (m : M A) (k : A -> M B) : M B :=
  fun s =>
    match m s with
    | (Returned a, s') => k a s'
    | (Raised e, s') => (Raised e, s')
    end.

(** [try: body except Exception as e: handler e] *)
Definition try_except {A : Type} (body : M A) (handler : Exception -> M A) : M A :=
  fun s =>
    match body s with
    | (Returned a, s') => (Returned a, s')
    | (Raised e, s') => handler e s'
    end.

Declare Scope py_scope.
Delimit Scope py_scope with py.
Notation "x <- m ;; k" := (bind m (fun x => k))
  (at level 100, m at next level, right associativity) : py_scope.
Notation "m ;; k" := (bind m (fun _ => k))
  (at level 100, right associativity) : py_scope.
Local Open Scope py_scope.

Definition emit (e : Event) : M unit :=
  fun s => (Returned tt, {| next_id := next_id s; cache := cache s; log := log s ++ [e] |}).

Definition new_id : M nat :=
  fun s => (Returned (next_id s),
            {| next_id := S (next_id s); cache := cache s; log := log s |}).

Definition check (verdict : option Exception) : M unit :=
  match verdict with
  | None => ret tt
  | Some e => raise e
  end.

(** ** Streamlit elements *)

Definition st_warning (body : string) : M unit := emit (Warning body).
Definition st_error (body : string) : M unit := emit (Error body).
Definition st_success (body : string) : M unit := emit (Success body).
Definition st_markdown (body : string) (unsafe_allow_html : bool) : M unit :=
  emit (Markdown body unsafe_allow_html).
Definition st_divider : M unit := emit Divider.
Definition st_spinner (text : string) : M unit := emit (Spinner text).

(** Python truthiness of a [str]: only the empty string is false. *)
Definition truthy (s : string) : bool :=
  match s with
  | EmptyString => false
  | String _ _ => true
  end.

(** Truthiness of the value returned by [run_research_pipeline]: [None] is
    false, a text is judged as a [str]. *)
Definition truthy_result (result : option string) : bool :=
  match result with
  | None => false
  | Some text => truthy text
  end.

Definition newline : string := String "010"%char EmptyString.
Definition dquote : string := String "034"%char EmptyString.

(** The events that a run appended to the log. *)
Definition run_log {A : Type} (m : M A) (s : Process) : list Event :=
  drop (length (log s)) (log (snd (m s))).

(** Page elements, as opposed to engine calls and ghost marks. *)
Definition is_element (e : Event) : bool :=
  match e with
  | Entered_run_research_pipeline _ _ _ _ | Kickoff _ _ => false
  | _ => true
  end.

Definition rendered (evs : list Event) : list Event := List.filter is_element evs.

Section Pipeline.

Context (ext : Collaborators).

(** ** External constructors and the engine *)

Definition ChatOpenAI (model : string) (temperature : Q) (api_key : string) : M LLM :=
  check (ChatOpenAI_raises ext model temperature api_key) ;;
  i <- new_id ;;
  ret {| llm_id := i; llm_model := model; llm_temperature := temperature;
         llm_openai_api_key := api_key |}.

Definition SerperDevTool (api_key : string) : M SearchTool :=
  check (SerperDevTool_raises ext api_key) ;;
  i <- new_id ;;
  ret {| tool_id := i; tool_api_key := api_key |}.

Definition Agent (a : AgentSpec) : M AgentSpec :=
  check (Agent_raises ext a) ;; ret a.

Definition Task (t : TaskSpec) : M TaskSpec :=
  check (Task_raises ext t) ;; ret t.

Definition Crew (c : CrewSpec) : M CrewSpec :=
  check (Crew_raises ext c) ;; ret c.

(** [crew.kickoff(inputs=...)]: the call is logged, then the engine answers. *)
Definition kickoff (crew : CrewSpec) (inputs : gmap string string) : M string :=
  fun s =>
    let s' := {| next_id := next_id s; cache := cache s;
                 log := log s ++ [Kickoff crew inputs] |} in
    match kickoff_returns ext (log s) crew inputs with
    | inr text => (Returned text, s')
    | inl e => (Raised e, s')
    end.

(** ** Tool/Model Initializer *)

(** The body of [initialize_tools], below the decorator. *)
Definition initialize_tools_body (api_key search_api_key model_name : string)
  : M ToolHandles :=
  llm <- ChatOpenAI model_name (3 # 10)%Q api_key ;;
  search_tool <- SerperDevTool search_api_key ;;
  ret (llm, search_tool).

(** Modelled from the spec: the decorator [@st.cache_resource] is Streamlit
    library code and is not part of the repository.  Following section 4.1
    ("caches the returned pair keyed by the exact argument triple ... No
    explicit invalidation; cache lives for the process lifetime"): a call
    whose triple is in the store returns the stored pair and does not run
    the body; otherwise the body runs and, when it returns, its value is
    stored under the triple.  A body that raises stores nothing. *)
Definition st_cache_resource
    (f : string -> string -> string -> M ToolHandles)
    (api_key search_api_key model_name : string) : M ToolHandles :=
  fun s =>
    match cache s !! (api_key, search_api_key, model_name) with
    | Some handles => (Returned handles, s)
    | None =>
        match f api_key search_api_key model_name s with
        | (Returned handles, s') =>
            (Returned handles,
             {| next_id := next_id s';
                cache := <[(api_key, search_api_key, model_name) := handles]> (cache s');
                log := log s' |})
        | (Raised e, s') => (Raised e, s')
        end
    end.

Definition initialize_tools : string -> string -> string -> M ToolHandles :=
  st_cache_resource initialize_tools_body.

(** ** Agent Definitions *)

(** The arguments of the two [Agent(...)] calls. *)
Definition research_agent (llm : LLM) (search_tool : SearchTool) : AgentSpec :=
  {| role := "Research Specialist";
     goal := "Conduct fast, accurate research on the given topic";
     backstory := "Expert in information gathering and analysis";
     verbose := true;
     memory := false;
     tools := [search_tool];
     llm := llm |}.

Definition writer_agent (llm : LLM) (search_tool : SearchTool) : AgentSpec :=
  {| role := "Technical Research Writer";
     goal := "Create concise, structured reports";
     backstory := "Specialist in clear, precise technical research paper writing";
     verbose := true;
     memory := false;
     tools := [search_tool];
     llm := llm |}.

Definition initialize_agents (llm : LLM) (search_tool : SearchTool)
  : M (AgentSpec * AgentSpec) :=
  research_agent <- Agent (research_agent llm search_tool) ;;
  writer_agent <- Agent (writer_agent llm search_tool) ;;
  ret (research_agent, writer_agent).

(** ** Task Composition *)

(** Lines 66-70: the description starts from the topic and grows with
    [+=] under each flag. *)
Definition research_description (topic : string) (include_news include_academic : bool)
  : string :=
  let research_description := "Find key information about: " +:+ topic in
  let research_description :=
    if include_news
    then research_description +:+ " Include the latest news articles."
    else research_description in
  let research_description :=
    if include_academic
    then research_description +:+ " Also include research papers and academic sources."
    else research_description in
  research_description.

(** The arguments of the first [Task(...)] call. *)
Definition research_task (research_agent : AgentSpec)
    (topic : string) (include_news include_academic : bool) : TaskSpec :=
  {| description := research_description topic include_news include_academic;
     agent := research_agent;
     expected_output :=
       if include_academic
       then "Detailed Bullet points of key facts, recent developments, and academic references."
       else "Bullet points of key facts and recent developments.";
     async_execution := Some true;
     context := None |}.

(** The arguments of the second [Task(...)] call; [research_task] is the
    task object that the first call returned. *)
Definition writing_task (writer_agent : AgentSpec) (research_task : TaskSpec)
    (topic output_format : string) : TaskSpec :=
  {| description :=
       "Create structured report on: " +:+ topic +:+ " in " +:+ output_format +:+ " format.";
     agent := writer_agent;
     expected_output :=
       " A " +:+ output_format +:+ " document with:" +:+ newline
         +:+ "- Introduction" +:+ newline
         +:+ "- Key Findings" +:+ newline
         +:+ "- Recent Developments" +:+ newline
         +:+ "- Future Outlook" +:+ newline
         +:+ "- References";
     async_execution := None;
     context := Some [research_task] |}.

(** ** Orchestration Submission *)

(** The [try] block of [run_research_pipeline]; [w] holds the globals that
    the body reads ([openai_api_key], [serper_api_key], [selected_model]).
    The first step is the ghost mark of the entry. *)
Definition run_research_pipeline_try (w : Widgets)
    (topic : string) (include_news include_academic : bool) (output_format : string)
  : M (option string) :=
  emit (Entered_run_research_pipeline topic include_news include_academic output_format) ;;
  handles <- initialize_tools (openai_api_key w) (serper_api_key w) (selected_model w) ;;
  let '(llm, search_tool) := handles in
  agent_pair <- initialize_agents llm search_tool ;;
  let '(research_agent, writer_agent) := agent_pair in
  research_task <- Task (research_task research_agent topic include_news include_academic) ;;
  writing_task <- Task (writing_task writer_agent research_task topic output_format) ;;
  crew <- Crew {| agents := [research_agent; writer_agent];
                  tasks := [research_task; writing_task] |} ;;
  result <- kickoff crew {[ "topic" := topic ]} ;;
  ret (Some result).

(** [try: ... except Exception as e: st.error(f"Error: {str(e)}"); return None] *)
Definition run_research_pipeline (w : Widgets)
    (topic : string) (include_news include_academic : bool) (output_format : string)
  : M (option string) :=
  try_except
    (run_research_pipeline_try w topic include_news include_academic output_format)
    (fun e => st_error ("Error: " +:+ str e) ;; ret None).

(** ** The "Start Research" button and Result Rendering *)

Definition report_heading : string := "## Research Report".

Definition report_block (result : string) : string :=
  "<div class=" +:+ dquote +:+ "report-output" +:+ dquote +:+ ">" +:+ result +:+ "</div>".

Definition powered_by : string :=
  "<p class=" +:+ dquote +:+ "powered-by" +:+ dquote +:+ ">Powered by OpenAI and CrewAI</p>".

Definition spinner_text : string :=
  "🚀 Launching research agents and generating the report...".

Definition success_banner : string := "✅ Research complete!".

(** The block under [with st.spinner(...)]: the call of the pipeline and
    Result Rendering. *)
Definition research_block (w : Widgets) : M unit :=
  result <- run_research_pipeline w (topic w) (include_news w) (include_academic w)
              (output_format w) ;;
  (if truthy_result result
   then
     st_markdown report_heading false ;;
     st_markdown (report_block (default "None" result)) true
   else ret tt) ;;
  st_divider ;;
  st_markdown powered_by true.

(** The body of [if col2.button("Start Research", ...)]: what one press of
    the button runs. *)
Definition start_research (w : Widgets) : M unit :=
  (if negb (truthy (topic w))
   then st_warning "Please enter the research topic"
   else
     st_spinner spinner_text ;;
     research_block w) ;;
  st_success success_banner.

End Pipeline.

(** ** Notions used by the properties *)

(** The dependency sequence of a task: its [context], empty when the
    keyword is not passed. *)
Definition dependencies (t : TaskSpec) : list TaskSpec := default [] (context t).

(** The dependency graph over the tasks [ts]: an edge from [a] to [b] when
    [b] is in the dependency sequence of [a].  Tasks are compared as
    values; the two tasks of a run differ as values, so this agrees with
    the identity of the Python objects. *)
Definition depends_on (ts : list TaskSpec) (a b : TaskSpec) : Prop :=
  In a ts /\ In b ts /\ In b (dependencies a).

(** [names] occur in [text] one after the other, without overlap. *)
Fixpoint occur_in_order (names : list string) (text : string) : Prop :=
  match names with
  | [] => True
  | name :: rest =>
      exists before after, text = before +:+ name +:+ after /\ occur_in_order rest after
  end.

(** The crew that a run composes from the handles [h]. *)
Definition composed_crew (h : ToolHandles)
    (topic : string) (include_news include_academic : bool) (output_format : string)
  : CrewSpec :=
  let ra := research_agent h.1 h.2 in
  let wa := writer_agent h.1 h.2 in
  let rt := research_task ra topic include_news include_academic in
  {| agents := [ra; wa]; tasks := [rt; writing_task wa rt topic output_format] |}.

(** The first exception, if any, raised by the five constructor calls
    between [initialize_tools] and [crew.kickoff]. *)
Definition composition_raises (ext : Collaborators) (h : ToolHandles)
    (topic : string) (include_news include_academic : bool) (output_format : string)
  : option Exception :=
  let c := composed_crew h topic include_news include_academic output_format in
  let ra := research_agent h.1 h.2 in
  let wa := writer_agent h.1 h.2 in
  let rt := research_task ra topic include_news include_academic in
  match Agent_raises ext ra with
  | Some e => Some e
  | None =>
  match Agent_raises ext wa with
  | Some e => Some e
  | None =>
  match Task_raises ext rt with
  | Some e => Some e
  | None =>
  match Task_raises ext (writing_task wa rt topic output_format) with
  | Some e => Some e
  | None => Crew_raises ext c
  end end end end.

Definition with_event (s : Process) (e : Event) : Process :=
  {| next_id := next_id s; cache := cache s; log := log s ++ [e] |}.

(** The life of the process: calls of the cached initialiser and presses
    of the button, in any order. *)
Inductive Action : Type :=
| Call_initialize_tools (api_key search_api_key model_name : string)
| Press_Start_Research (w : Widgets).

Definition perform (ext : Collaborators) (s : Process) (a : Action) : Process :=
  match a with
  | Call_initialize_tools api_key search_api_key model_name =>
      snd (initialize_tools ext api_key search_api_key model_name s)
  | Press_Start_Research w => snd (start_research ext w s)
  end.

Definition perform_all (ext : Collaborators) (acts : list Action) (s : Process) : Process :=
  fold_left (perform ext) acts s.

(** Two handle pairs that share no object. *)
Definition distinct_handles (h1 h2 : ToolHandles) : Prop :=
  llm_id h1.1 <> llm_id h2.1 /\ tool_id h1.2 <> tool_id h2.2.

(** ** Concrete collaborators and widget values *)

(** Collaborators that accept every argument except an empty model key;
    the engine returns a fixed report. *)
Definition demo_ext : Collaborators :=
  {| ChatOpenAI_raises := fun _ _ api_key =>
       if truthy api_key then None else Some (mkException "The api_key client option must be set");
     SerperDevTool_raises := fun _ => None;
     Agent_raises := fun _ => None;
     Task_raises := fun _ => None;
     Crew_raises := fun _ => None;
     kickoff_returns := fun _ _ _ => inr "REPORT" |}.

(** The example of section 8 of the specification. *)
Definition demo_widgets : Widgets :=
  {| openai_api_key := "sk-demo";
     serper_api_key := "serper-demo";
     selected_model := "gpt-4o-mini";
     include_news := true;
     include_academic := false;
     output_format := "Markdown";
     topic := "Quantum Computing Advances 2024" |}.

(** The same, with the model key left empty. *)
Definition keyless_widgets : Widgets :=
  {| openai_api_key := "";
     serper_api_key := "serper-demo";
     selected_model := "gpt-4o-mini";
     include_news := true;
     include_academic := false;
     output_format := "Markdown";
     topic := "Quantum Computing Advances 2024" |}.

(** The research description in the words of section 4.2: the base text,
    then one sentence per flag that is set, news before academic. *)
Definition described_research_description
    (topic : string) (include_news include_academic : bool) : string :=
  "Find key information about: " +:+ topic
    +:+ (if include_news then " Include the latest news articles." else "")
    +:+ (if include_academic
         then " Also include research papers and academic sources." else "").

(** The five mandatory sections of the report, in their order. *)
Definition sections : list string :=
  ["Introduction"; "Key Findings"; "Recent Developments"; "Future Outlook"; "References"].

(** The roles in the words of the specification. *)
Definition stated_roles : string * string := ("Research Specialist", "Technical Writer").

(** The failure contract in the words of section 4.4: nothing is rendered
    after an error message. *)
Definition rendering_suppressed_after_error (evs : list Event) : Prop :=
  forall before msg after, rendered evs = before ++ Error msg :: after -> after = [].

(** The invariant of the store: every cached object was created by this
    process, and the pairs cached under two different argument triples
    share no object. *)
Definition cache_wf (s : Process) : Prop :=
  (forall k h, cache s !! k = Some h ->
               llm_id h.1 < next_id s /\ tool_id h.2 < next_id s) /\
  (forall k1 k2 h1 h2,
      k1 <> k2 -> cache s !! k1 = Some h1 -> cache s !! k2 = Some h2 ->
      distinct_handles h1 h2).

(** [s'] keeps every entry of the store of [s]. *)
Definition keeps_cache (s s' : Process) : Prop :=
  forall k h, cache s !! k = Some h -> cache s' !! k = Some h.

(** The handles and the crew of the first run with [demo_widgets] in a
    fresh process. *)
Definition demo_handles : ToolHandles :=
  ({| llm_id := 0; llm_model := "gpt-4o-mini"; llm_temperature := (3 # 10)%Q;
      llm_openai_api_key := "sk-demo" |},
   {| tool_id := 1; tool_api_key := "serper-demo" |}).

Definition demo_crew : CrewSpec :=
  composed_crew demo_handles "Quantum Computing Advances 2024" true false "Markdown".

Definition demo_inputs : gmap string string :=
  {[ "topic" := "Quantum Computing Advances 2024" ]}.

Definition demo_run : M (option string) :=
  run_research_pipeline demo_ext demo_widgets "Quantum Computing Advances 2024" true false
    "Markdown".

(** Widget values with the topic left empty. *)
Definition blank_widgets : Widgets :=
  {| openai_api_key := "sk-demo";
     serper_api_key := "serper-demo";
     selected_model := "gpt-4o-mini";
     include_news := true;
     include_academic := true;
     output_format := "HTML";
     topic := "" |}.

(** ** Notions used by the further properties *)

(** The choices of the output-format selector of the sidebar (line 26). *)
Definition format_options : list string := ["Markdown"; "HTML"; "Plain Text"].

Definition is_kickoff (e : Event) : bool :=
  match e with
  | Kickoff _ _ => true
  | _ => false
  end.

Definition is_error (e : Event) : bool :=
  match e with
  | Error _ => true
  | _ => false
  end.

(** What Result Rendering adds for an outcome of the [try] block: the
    report for a truthy result, the error message for a failure. *)
Definition result_elements (o : Outcome (option string)) : list Event :=
  match o with
  | Returned r =>
      if truthy_result r
      then [Markdown report_heading false; Markdown (report_block (default "None" r)) true]
      else []
  | Raised e => [Error ("Error: " +:+ str e)]
  end.

(** Every pair in the store was built from the triple it is stored under. *)
Definition cache_keyed (s : Process) : Prop :=
  forall api_key search_api_key model_name h,
    cache s !! (api_key, search_api_key, model_name) = Some h ->
    llm_model h.1 = model_name /\
    llm_openai_api_key h.1 = api_key /\
    llm_temperature h.1 = (3 # 10)%Q /\
    tool_api_key h.2 = search_api_key.

(** The argument triple that a run with the widget values [w] passes to
    [initialize_tools] (line 62). *)
Definition widget_key (w : Widgets) : string * string * string :=
  (openai_api_key w, serper_api_key w, selected_model w).


(** Collaborators whose crew constructor rejects every crew. *)
Definition rejecting_crew_ext : Collaborators :=
  {| ChatOpenAI_raises := fun _ _ _ => None;
     SerperDevTool_raises := fun _ => None;
     Agent_raises := fun _ => None;
     Task_raises := fun _ => None;
     Crew_raises := fun _ => Some (mkException "crew validation failed");
     kickoff_returns := fun _ _ _ => inr "REPORT" |}.

(** Widget values whose topic is a single space. *)
Definition space_widgets : Widgets :=
  {| openai_api_key := "sk-demo";
     serper_api_key := "serper-demo";
     selected_model := "gpt-4o-mini";
     include_news := false;
     include_academic := true;
     output_format := "Plain Text";
     topic := " " |}.

(** The widget values of [demo_widgets] with another topic and format. *)
Definition second_widgets : Widgets :=
  {| openai_api_key := "sk-demo";
     serper_api_key := "serper-demo";
     selected_model := "gpt-4o-mini";
     include_news := false;
     include_academic := true;
     output_format := "HTML";
     topic := "Solid-state batteries" |}.

(** The handles that a process creates after [demo_handles], for the
    model "o3-mini". *)
Definition later_handles : ToolHandles :=
  ({| llm_id := 2; llm_model := "o3-mini"; llm_temperature := (3 # 10)%Q;
      llm_openai_api_key := "sk-demo" |},
   {| tool_id := 3; tool_api_key := "serper-demo" |}).

(** The widget values of [demo_widgets] with another model. *)
Definition other_model_widgets : Widgets :=
  {| openai_api_key := "sk-demo";
     serper_api_key := "serper-demo";
     selected_model := "o3-mini";
     include_news := true;
     include_academic := false;
     output_format := "Markdown";
     topic := "Quantum Computing Advances 2024" |}.

(** ** Stepping lemmas *)

Lemma run_log_app {A : Type} (m : M A) (s : Process) (evs : list Event) :
  log (snd (m s)) = log s ++ evs -> run_log m s = evs.
Proof.
  intros H. unfold run_log. rewrite H. by rewrite drop_app_length.
Qed.

Lemma initialize_tools_unfold (ext : Collaborators)
    (api_key search_api_key model_name : string) (s : Process) :
  initialize_tools ext api_key search_api_key model_name s =
    match cache s !! (api_key, search_api_key, model_name) with
    | Some h => (Returned h, s)
    | None =>
        match ChatOpenAI_raises ext model_name (3 # 10)%Q api_key with
        | Some e => (Raised e, s)
        | None =>
            match SerperDevTool_raises ext search_api_key with
            | Some e =>
                (Raised e, {| next_id := S (next_id s); cache := cache s; log := log s |})
            | None =>
                let h := ({| llm_id := next_id s; llm_model := model_name;
                             llm_temperature := (3 # 10)%Q;
                             llm_openai_api_key := api_key |},
                          {| tool_id := S (next_id s); tool_api_key := search_api_key |}) in
                (Returned h,
                 {| next_id := S (S (next_id s));
                    cache := <[(api_key, search_api_key, model_name) := h]> (cache s);
                    log := log s |})
            end
        end
    end.
Proof.
  unfold initialize_tools, st_cache_resource.
  destruct (cache s !! _); [reflexivity|].
  unfold initialize_tools_body, ChatOpenAI, SerperDevTool, bind, check.
  destruct (ChatOpenAI_raises ext _ _ _); simpl; [by destruct s|].
  destruct (SerperDevTool_raises ext _); reflexivity.
Qed.

Lemma initialize_tools_log (ext : Collaborators) (k1 k2 k3 : string) (s : Process) :
  log (snd (initialize_tools ext k1 k2 k3 s)) = log s.
Proof.
  rewrite initialize_tools_unfold.
  destruct (cache s !! _); [reflexivity|].
  destruct (ChatOpenAI_raises ext _ _ _); [reflexivity|].
  destruct (SerperDevTool_raises ext _); reflexivity.
Qed.

(** The [try] block, stage by stage. *)
Lemma run_research_pipeline_try_unfold (ext : Collaborators) (w : Widgets)
    (topic : string) (include_news include_academic : bool) (output_format : string)
    (s : Process) :
  run_research_pipeline_try ext w topic include_news include_academic output_format s =
    match initialize_tools ext (openai_api_key w) (serper_api_key w) (selected_model w)
            (with_event s (Entered_run_research_pipeline topic include_news
                             include_academic output_format)) with
    | (Raised e, s1) => (Raised e, s1)
    | (Returned h, s1) =>
        match composition_raises ext h topic include_news include_academic output_format with
        | Some e => (Raised e, s1)
        | None =>
            let c := composed_crew h topic include_news include_academic output_format in
            let s2 := with_event s1 (Kickoff c {[ "topic" := topic ]}) in
            match kickoff_returns ext (log s1) c {[ "topic" := topic ]} with
            | inr text => (Returned (Some text), s2)
            | inl e => (Raised e, s2)
            end
        end
    end.
Proof.
  unfold run_research_pipeline_try, bind at 1. unfold emit at 1. fold (with_event s).
  unfold bind at 1.
  destruct (initialize_tools _ _ _ _ _) as [[[l t]|e] s1]; [|reflexivity].
  unfold composition_raises, composed_crew, initialize_agents, Agent, Task, Crew, kickoff,
    bind, check, ret, raise, with_event. simpl.
  destruct (Agent_raises ext (research_agent l t)); [reflexivity|].
  destruct (Agent_raises ext (writer_agent l t)); [reflexivity|].
  destruct (Task_raises ext (research_task _ _ _ _)); [reflexivity|].
  destruct (Task_raises ext (writing_task _ _ _ _)); [reflexivity|].
  destruct (Crew_raises ext _); [reflexivity|].
  destruct (kickoff_returns ext _ _ _); reflexivity.
Qed.

Lemma initialize_tools_cached (ext : Collaborators) (k1 k2 k3 : string)
    (s s1 : Process) (h : ToolHandles) :
  initialize_tools ext k1 k2 k3 s = (Returned h, s1) ->
  cache s1 !! (k1, k2, k3) = Some h.
Proof.
  rewrite initialize_tools_unfold.
  destruct (cache s !! (k1, k2, k3)) as [h0|] eqn:Hhit.
  - intros [= <- <-]. exact Hhit.
  - destruct (ChatOpenAI_raises ext _ _ _); [discriminate|].
    destruct (SerperDevTool_raises ext _); [discriminate|].
    intros [= <- <-]. simpl. apply lookup_insert_eq.
Qed.

Lemma run_research_pipeline_unfold (ext : Collaborators) (w : Widgets)
    (topic : string) (include_news include_academic : bool) (output_format : string)
    (s : Process) :
  run_research_pipeline ext w topic include_news include_academic output_format s =
    match run_research_pipeline_try ext w topic include_news include_academic
            output_format s with
    | (Returned r, s1) => (Returned r, s1)
    | (Raised e, s1) => (Returned None, with_event s1 (Error ("Error: " +:+ str e)))
    end.
Proof.
  unfold run_research_pipeline, try_except.
  destruct (run_research_pipeline_try _ _ _ _ _ _ _) as [[r|e] s1]; reflexivity.
Qed.

(** What the [try] block leaves in the log: the entry mark and at most one
    submission, of the crew composed from the cached handles. *)
Lemma run_research_pipeline_try_log (ext : Collaborators) (w : Widgets)
    (topic : string) (include_news include_academic : bool) (output_format : string)
    (s : Process) :
  let run := run_research_pipeline_try ext w topic include_news include_academic
               output_format s in
  let entered := Entered_run_research_pipeline topic include_news include_academic
                   output_format in
  exists calls,
    log (snd run) = log s ++ entered :: calls /\
    (calls = [] \/
     exists h,
       cache (snd run) !! (openai_api_key w, serper_api_key w, selected_model w) = Some h /\
       calls = [Kickoff (composed_crew h topic include_news include_academic output_format)
                  {[ "topic" := topic ]}] /\
       match kickoff_returns ext (log s ++ [entered])
               (composed_crew h topic include_news include_academic output_format)
               {[ "topic" := topic ]} with
       | inr text => fst run = Returned (Some text)
       | inl e => fst run = Raised e
       end) /\
    (forall r, fst run = Returned r -> exists text, r = Some text /\ calls <> []).
Proof.
  intros run entered. subst run. rewrite run_research_pipeline_try_unfold. fold entered.
  pose proof (initialize_tools_log ext (openai_api_key w) (serper_api_key w)
                (selected_model w) (with_event s entered)) as Hlog.
  pose proof (initialize_tools_cached ext (openai_api_key w) (serper_api_key w)
                (selected_model w) (with_event s entered)) as Hcached.
  destruct (initialize_tools _ _ _ _ _) as [[h|e] s1]; simpl in Hlog.
  - specialize (Hcached s1 h eq_refl).
    destruct (composition_raises _ _ _ _ _ _).
    + exists []. simpl. rewrite Hlog. split; [reflexivity|]. split; [by left|]. discriminate.
    + cbv zeta.
      destruct (kickoff_returns ext (log s1) _ _) as [e|text] eqn:Hengine;
        (eexists [_]; simpl; rewrite Hlog, <- app_assoc; split; [reflexivity|]; split;
         [right; exists h; split; [exact Hcached|]; split; [reflexivity|];
          rewrite Hlog in Hengine; rewrite Hengine; reflexivity|]).
      * discriminate.
      * intros r [= <-]. by exists text.
  - exists []. simpl. rewrite Hlog. split; [reflexivity|]. split; [by left|]. discriminate.
Qed.

(** The pipeline never lets an exception out, and adds one error message
    exactly when the [try] block raised. *)
Lemma run_research_pipeline_log (ext : Collaborators) (w : Widgets)
    (topic : string) (include_news include_academic : bool) (output_format : string)
    (s : Process) :
  let attempt := run_research_pipeline_try ext w topic include_news include_academic
                   output_format s in
  let run := run_research_pipeline ext w topic include_news include_academic
               output_format s in
  cache (snd run) = cache (snd attempt) /\
  next_id (snd run) = next_id (snd attempt) /\
  match fst attempt with
  | Returned r => fst run = Returned r /\ log (snd run) = log (snd attempt)
  | Raised e =>
      fst run = Returned None /\
      log (snd run) = log (snd attempt) ++ [Error ("Error: " +:+ str e)]
  end.
Proof.
  intros attempt run. subst run. rewrite run_research_pipeline_unfold. fold attempt.
  destruct attempt as [[r|e] s1]; simpl; auto.
Qed.

Lemma research_block_unfold (ext : Collaborators) (w : Widgets) (s : Process) :
  let run := run_research_pipeline ext w (topic w) (include_news w) (include_academic w)
               (output_format w) s in
  forall r, fst run = Returned r ->
  research_block ext w s =
    (Returned tt,
     {| next_id := next_id (snd run);
        cache := cache (snd run);
        log := log (snd run)
                 ++ (if truthy_result r
                     then [Markdown report_heading false;
                           Markdown (report_block (default "None" r)) true]
                     else [])
                 ++ [Divider; Markdown powered_by true] |}).
Proof.
  intros run r Hr. unfold research_block, bind at 1. fold run.
  destruct run as [o s1]. simpl in Hr. subst o. simpl.
  unfold bind, st_markdown, st_divider, emit, ret.
  destruct (truthy_result r); simpl; rewrite <- ?app_assoc; reflexivity.
Qed.

Lemma run_research_pipeline_returns (ext : Collaborators) (w : Widgets)
    (topic : string) (include_news include_academic : bool) (output_format : string)
    (s : Process) :
  exists r,
    fst (run_research_pipeline ext w topic include_news include_academic output_format s)
    = Returned r.
Proof.
  rewrite run_research_pipeline_unfold.
  destruct (run_research_pipeline_try _ _ _ _ _ _ _) as [[r|e] s1]; simpl; eauto.
Qed.

Lemma start_research_unfold (ext : Collaborators) (w : Widgets) (s : Process) :
  start_research ext w s =
    if negb (truthy (topic w))
    then (Returned tt,
          {| next_id := next_id s; cache := cache s;
             log := log s ++ [Warning "Please enter the research topic";
                              Success success_banner] |})
    else
      match research_block ext w (with_event s (Spinner spinner_text)) with
      | (Returned _, s1) => (Returned tt, with_event s1 (Success success_banner))
      | (Raised e, s1) => (Raised e, s1)
      end.
Proof.
  unfold start_research, bind at 1.
  destruct (negb (truthy (topic w))).
  - unfold st_warning, st_success, emit. simpl. by rewrite <- app_assoc.
  - unfold bind at 1, st_spinner, emit at 1. fold (with_event s (Spinner spinner_text)).
    destruct (research_block _ _ _) as [[[]|e] s1]; reflexivity.
Qed.

Lemma start_research_log (ext : Collaborators) (w : Widgets) (s : Process) :
  truthy (topic w) = true ->
  let attempt := run_research_pipeline_try ext w (topic w) (include_news w)
                   (include_academic w) (output_format w)
                   (with_event s (Spinner spinner_text)) in
  fst (start_research ext w s) = Returned tt /\
  cache (snd (start_research ext w s)) = cache (snd attempt) /\
  next_id (snd (start_research ext w s)) = next_id (snd attempt) /\
  log (snd (start_research ext w s)) =
    log (snd attempt)
      ++ match fst attempt with
         | Returned r =>
             if truthy_result r
             then [Markdown report_heading false;
                   Markdown (report_block (default "None" r)) true]
             else []
         | Raised e => [Error ("Error: " +:+ str e)]
         end
      ++ [Divider; Markdown powered_by true; Success success_banner].
Proof.
  intros Htopic attempt.
  rewrite start_research_unfold, Htopic. simpl negb. cbv iota.
  destruct (run_research_pipeline_log ext w (topic w) (include_news w) (include_academic w)
              (output_format w) (with_event s (Spinner spinner_text)))
    as (Hcache & Hid & Hrun).
  fold attempt in Hcache, Hid, Hrun.
  destruct (fst attempt) as [r|e] eqn:Hattempt; destruct Hrun as [Hres Hlog].
  - rewrite (research_block_unfold ext w _ r Hres). simpl.
    rewrite Hlog, Hcache, Hid, <- !app_assoc.
    destruct (truthy_result r); auto.
  - rewrite (research_block_unfold ext w _ None Hres). simpl.
    rewrite Hlog, Hcache, Hid, <- !app_assoc. auto.
Qed.

(** Every crew that a run of the pipeline submits is the crew composed
    from the cached handles, with the topic as input. *)
Lemma submitted_crew (ext : Collaborators) (w : Widgets)
    (topic : string) (include_news include_academic : bool) (output_format : string)
    (s : Process) (crew : CrewSpec) (inputs : gmap string string) :
  let run := run_research_pipeline ext w topic include_news include_academic output_format in
  In (Kickoff crew inputs) (run_log run s) ->
  exists h,
    cache (snd (run s)) !! (openai_api_key w, serper_api_key w, selected_model w) = Some h /\
    crew = composed_crew h topic include_news include_academic output_format /\
    inputs = {[ "topic" := topic ]}.
Proof.
  intros run. subst run.
  destruct (run_research_pipeline_log ext w topic include_news include_academic
              output_format s) as (Hcache & _ & Hrun).
  destruct (run_research_pipeline_try_log ext w topic include_news include_academic
              output_format s) as (calls & Hlog & Hcalls & _).
  cbv zeta in *.
  assert (exists tail,
      log (snd (run_research_pipeline ext w topic include_news include_academic
                  output_format s))
      = log s ++ Entered_run_research_pipeline topic include_news include_academic
                   output_format :: calls ++ tail /\
      forall c i, ~ In (Kickoff c i) tail) as (tail & Hfull & Htail).
  { destruct (fst (run_research_pipeline_try _ _ _ _ _ _ _)); destruct Hrun as [_ ->].
    - exists []. rewrite app_nil_r. split; [exact Hlog|]. intros c i [].
    - eexists [_]. rewrite Hlog, <- app_assoc. split; [reflexivity|].
      intros c i [?|[]]; discriminate. }
  rewrite (run_log_app _ _ _ Hfull). intros [Hin|Hin]; [discriminate|].
  apply in_app_or in Hin. destruct Hin as [Hin|Hin]; [|by apply Htail in Hin].
  destruct Hcalls as [->|(h & Hh & -> & _)]; [destruct Hin|].
  destruct Hin as [[= <- <-]|[]].
  exists h. rewrite Hcache. auto.
Qed.

Lemma string_app_assoc (a b c : string) : (a +:+ b) +:+ c = a +:+ b +:+ c.
Proof.
  induction a as [|x a IH]; [reflexivity|].
  change (String x ((a +:+ b) +:+ c) = String x (a +:+ b +:+ c)). by rewrite IH.
Qed.

Lemma string_app_nil_r (a : string) : a +:+ "" = a.
Proof.
  induction a as [|x a IH]; [reflexivity|].
  change (String x (a +:+ "") = String x a). by rewrite IH.
Qed.

(** ** Task Composition: the texts *)

(** C1: for every topic and every combination of [include_news] and
    [include_academic], the description that [run_research_pipeline] builds
    for the research task is "Find key information about: {topic}", followed
    by the news sentence exactly when [include_news] holds, followed by the
    academic sentence exactly when [include_academic] holds; every crew the
    pipeline submits carries that description in its first task. *)
Theorem research_description_concatenation (ext : Collaborators) (w : Widgets)
    (s : Process) (topic : string) (include_news include_academic : bool)
    (output_format : string) :
  research_description topic include_news include_academic
  = described_research_description topic include_news include_academic /\
  forall crew inputs,
    In (Kickoff crew inputs)
       (run_log (run_research_pipeline ext w topic include_news include_academic
                   output_format) s) ->
    exists r wt,
      tasks crew = [r; wt] /\
      description r = described_research_description topic include_news include_academic.
Proof.
  assert (research_description topic include_news include_academic
          = described_research_description topic include_news include_academic) as Hdesc.
  { unfold research_description, described_research_description.
    destruct include_news, include_academic;
      rewrite ?string_app_assoc, ?string_app_nil_r; reflexivity. }
  split; [exact Hdesc|].
  intros crew inputs Hin.
  apply submitted_crew in Hin as (h & _ & -> & _).
  eexists _, _. split; [reflexivity|]. exact Hdesc.
Qed.

(** The four literal combinations of section 8. *)
Lemma research_description_four_cases (topic : string) :
  research_description topic false false = "Find key information about: " +:+ topic /\
  research_description topic true false
  = "Find key information about: " +:+ topic +:+ " Include the latest news articles." /\
  research_description topic false true
  = "Find key information about: " +:+ topic
      +:+ " Also include research papers and academic sources." /\
  research_description topic true true
  = "Find key information about: " +:+ topic +:+ " Include the latest news articles."
      +:+ " Also include research papers and academic sources.".
Proof.
  unfold research_description. rewrite ?string_app_assoc. repeat split; reflexivity.
Qed.

(** C2: the expected output of the research task is a two-way choice on
    [include_academic] alone, in every crew the pipeline submits; for the
    example of section 8 it is exactly "Bullet points of key facts and
    recent developments." *)
Theorem research_expected_output_two_way (ext : Collaborators) (w : Widgets)
    (s : Process) (research_agent : AgentSpec) (topic : string)
    (include_news include_academic : bool) (output_format : string) :
  expected_output (research_task research_agent topic include_news include_academic)
  = (if include_academic
     then "Detailed Bullet points of key facts, recent developments, and academic references."
     else "Bullet points of key facts and recent developments.") /\
  expected_output (research_task research_agent "Quantum Computing Advances 2024" true false)
  = "Bullet points of key facts and recent developments." /\
  forall crew inputs,
    In (Kickoff crew inputs)
       (run_log (run_research_pipeline ext w topic include_news include_academic
                   output_format) s) ->
    exists r wt,
      tasks crew = [r; wt] /\
      expected_output r
      = (if include_academic
         then "Detailed Bullet points of key facts, recent developments, and academic references."
         else "Bullet points of key facts and recent developments.").
Proof.
  split; [reflexivity|]. split; [reflexivity|].
  intros crew inputs Hin.
  apply submitted_crew in Hin as (h & _ & -> & _).
  eexists _, _. split; reflexivity.
Qed.

(** C3: for every topic and every output format, whatever the two boolean
    preferences, the description of the writing task is exactly "Create
    structured report on: {topic} in {output_format} format." and its
    expected output contains the five section names Introduction, Key
    Findings, Recent Developments, Future Outlook, References in that
    order; the second task of every crew the pipeline submits has both
    properties. *)
Theorem writing_task_texts (ext : Collaborators) (w : Widgets) (s : Process)
    (writer_agent : AgentSpec) (research_task : TaskSpec)
    (topic : string) (include_news include_academic : bool) (output_format : string) :
  let wt0 := writing_task writer_agent research_task topic output_format in
  description wt0
  = "Create structured report on: " +:+ topic +:+ " in " +:+ output_format +:+ " format." /\
  occur_in_order sections (expected_output wt0) /\
  forall crew inputs,
    In (Kickoff crew inputs)
       (run_log (run_research_pipeline ext w topic include_news include_academic
                   output_format) s) ->
    exists r wt,
      tasks crew = [r; wt] /\
      description wt
      = "Create structured report on: " +:+ topic +:+ " in " +:+ output_format
          +:+ " format." /\
      occur_in_order sections (expected_output wt).
Proof.
  assert (forall wa rt,
             occur_in_order sections
               (expected_output (writing_task wa rt topic output_format))) as Hsections.
  { intros wa rt. unfold writing_task, sections, expected_output.
    exists (" A " +:+ output_format +:+ " document with:" +:+ newline +:+ "- "),
      (newline +:+ "- Key Findings" +:+ newline +:+ "- Recent Developments" +:+ newline
         +:+ "- Future Outlook" +:+ newline +:+ "- References").
    split; [by rewrite !string_app_assoc|].
    exists (newline +:+ "- "),
      (newline +:+ "- Recent Developments" +:+ newline +:+ "- Future Outlook" +:+ newline
         +:+ "- References").
    split; [reflexivity|].
    exists (newline +:+ "- "), (newline +:+ "- Future Outlook" +:+ newline +:+ "- References").
    split; [reflexivity|].
    exists (newline +:+ "- "), (newline +:+ "- References").
    split; [reflexivity|].
    exists (newline +:+ "- "), "".
    split; [reflexivity|exact I]. }
  intros wt0. split; [reflexivity|]. split; [apply Hsections|].
  intros crew inputs Hin.
  apply submitted_crew in Hin as (h & _ & -> & _).
  eexists _, _. split; [reflexivity|]. split; [reflexivity|apply Hsections].
Qed.

(** ** Task Composition: the dependency graph *)

Lemma composed_tasks_differ (research_agent writer_agent : AgentSpec)
    (topic : string) (include_news include_academic : bool) (output_format : string) :
  let r := research_task research_agent topic include_news include_academic in
  writing_task writer_agent r topic output_format <> r.
Proof. intros r H. apply (f_equal context) in H. discriminate H. Qed.

(** C7: the dependency sequence of the writing task is exactly the
    research task, the research task has no dependency, and the dependency
    graph over the two tasks has exactly one edge (writing to research) and
    no cycle; this holds of the two tasks of every crew the pipeline
    submits. *)
Theorem dependency_graph_one_edge_acyclic (ext : Collaborators) (w : Widgets)
    (s : Process) (research_agent writer_agent : AgentSpec)
    (topic : string) (include_news include_academic : bool) (output_format : string) :
  let r0 := research_task research_agent topic include_news include_academic in
  let wt0 := writing_task writer_agent r0 topic output_format in
  (dependencies wt0 = [r0] /\
   dependencies r0 = [] /\
   (forall a b, depends_on [r0; wt0] a b <-> a = wt0 /\ b = r0) /\
   (forall t, ~ tc (depends_on [r0; wt0]) t t)) /\
  forall crew inputs,
    In (Kickoff crew inputs)
       (run_log (run_research_pipeline ext w topic include_news include_academic
                   output_format) s) ->
    exists r wt,
      tasks crew = [r; wt] /\
      dependencies wt = [r] /\
      dependencies r = [] /\
      (forall a b, depends_on (tasks crew) a b <-> a = wt /\ b = r) /\
      (forall t, ~ tc (depends_on (tasks crew)) t t).
Proof.
  assert (forall ra wa,
    let r := research_task ra topic include_news include_academic in
    let wt := writing_task wa r topic output_format in
    dependencies wt = [r] /\
    dependencies r = [] /\
    (forall a b, depends_on [r; wt] a b <-> a = wt /\ b = r) /\
    (forall t, ~ tc (depends_on [r; wt]) t t)) as Hgraph.
  { intros ra wa r wt.
    assert (wt <> r) as Hne by apply composed_tasks_differ.
    assert (forall a b, depends_on [r; wt] a b <-> a = wt /\ b = r) as Hedge.
    { intros a b. unfold depends_on. split.
      - intros (Ha & _ & Hdep). destruct Ha as [<-|[<-|[]]].
        + destruct Hdep.
        + destruct Hdep as [<-|[]]. auto.
      - intros [-> ->]. simpl. auto. }
    split; [reflexivity|]. split; [reflexivity|]. split; [exact Hedge|].
    intros t Hcycle.
    assert (forall a b, tc (depends_on [r; wt]) a b -> a = wt /\ b = r) as Hpath.
    { intros a b Hab. induction Hab as [a b Hab|a b c Hab _ [Hb _]].
      - by apply Hedge.
      - apply Hedge in Hab as [_ ->]. by destruct Hne. }
    apply Hpath in Hcycle as [-> Heq]. by apply Hne. }
  intros r0 wt0. split; [apply Hgraph|].
  intros crew inputs Hin.
  apply submitted_crew in Hin as (h & _ & -> & _).
  eexists _, _. split; [reflexivity|]. apply Hgraph.
Qed.

(** ** Orchestration Submission *)

(** The three shapes of a run of the pipeline: a failure before the
    submission, a failure of the engine, a success. *)
Lemma run_research_pipeline_shape (ext : Collaborators) (w : Widgets)
    (topic : string) (include_news include_academic : bool) (output_format : string)
    (s : Process) :
  let run := run_research_pipeline ext w topic include_news include_academic output_format in
  let attempt := run_research_pipeline_try ext w topic include_news include_academic
                   output_format s in
  let entered := Entered_run_research_pipeline topic include_news include_academic
                   output_format in
  let inputs : gmap string string := {[ "topic" := topic ]} in
  (exists e,
      fst attempt = Raised e /\
      fst (run s) = Returned None /\
      run_log run s = [entered; Error ("Error: " +:+ str e)]) \/
  (exists h e,
      let crew := composed_crew h topic include_news include_academic output_format in
      fst attempt = Raised e /\
      fst (run s) = Returned None /\
      run_log run s = [entered; Kickoff crew inputs; Error ("Error: " +:+ str e)] /\
      kickoff_returns ext (log s ++ [entered]) crew inputs = inl e) \/
  (exists h text,
      let crew := composed_crew h topic include_news include_academic output_format in
      fst attempt = Returned (Some text) /\
      fst (run s) = Returned (Some text) /\
      run_log run s = [entered; Kickoff crew inputs] /\
      kickoff_returns ext (log s ++ [entered]) crew inputs = inr text).
Proof.
  intros run attempt entered inputs. subst run.
  destruct (run_research_pipeline_log ext w topic include_news include_academic
              output_format s) as (_ & _ & Hrun).
  destruct (run_research_pipeline_try_log ext w topic include_news include_academic
              output_format s) as (calls & Hlog & Hcalls & Hret).
  cbv zeta in Hrun, Hlog, Hcalls, Hret. fold attempt in Hrun, Hlog, Hcalls, Hret.
  fold entered in Hlog, Hcalls. fold inputs in Hcalls.
  destruct Hcalls as [->|(h & _ & -> & Hengine)].
  - left. destruct (fst attempt) as [r|e].
    + destruct (Hret r eq_refl) as (_ & _ & Hne). by destruct Hne.
    + destruct Hrun as [Hres Hfull]. exists e. split; [reflexivity|]. split; [exact Hres|].
      apply run_log_app. by rewrite Hfull, Hlog, <- app_assoc.
  - right.
    destruct (kickoff_returns ext (log s ++ [entered]) _ inputs) as [e|text] eqn:Hk;
      rewrite Hengine in Hrun; destruct Hrun as [Hres Hfull].
    + left. exists h, e. cbv zeta. split; [exact Hengine|]. split; [exact Hres|].
      split; [|exact Hk]. apply run_log_app. by rewrite Hfull, Hlog, <- app_assoc.
    + right. exists h, text. cbv zeta. split; [exact Hengine|]. split; [exact Hres|].
      split; [|exact Hk]. apply run_log_app. by rewrite Hfull, Hlog.
Qed.

(** C9: the pipeline submits to the engine a bundle of exactly the two
    agents and the two tasks, with an input map whose only key is "topic",
    bound to the topic, and when the engine returns a text the pipeline
    returns that text; a successful run made exactly one submission, and
    the submission does take place whenever the initialiser returns and
    the constructors accept the composed agents, tasks and crew. *)
Theorem orchestration_submission (ext : Collaborators) (w : Widgets) (s : Process)
    (topic : string) (include_news include_academic : bool) (output_format : string) :
  let run := run_research_pipeline ext w topic include_news include_academic output_format in
  let entered := Entered_run_research_pipeline topic include_news include_academic
                   output_format in
  (forall crew inputs,
      In (Kickoff crew inputs) (run_log run s) ->
      (exists h, crew = composed_crew h topic include_news include_academic output_format) /\
      length (agents crew) = 2 /\
      length (tasks crew) = 2 /\
      inputs = {[ "topic" := topic ]} /\
      dom inputs = {[ "topic" ]} /\
      fst (run s) = match kickoff_returns ext (log s ++ [entered]) crew inputs with
                    | inr text => Returned (Some text)
                    | inl _ => Returned None
                    end) /\
  (forall text,
      fst (run s) = Returned (Some text) ->
      exists crew,
        run_log run s = [entered; Kickoff crew {[ "topic" := topic ]}] /\
        kickoff_returns ext (log s ++ [entered]) crew {[ "topic" := topic ]} = inr text) /\
  (forall h s1,
      initialize_tools ext (openai_api_key w) (serper_api_key w) (selected_model w)
        (with_event s entered) = (Returned h, s1) ->
      composition_raises ext h topic include_news include_academic output_format = None ->
      In (Kickoff (composed_crew h topic include_news include_academic output_format)
            {[ "topic" := topic ]})
         (run_log run s)).
Proof.
  intros run entered.
  assert (forall h s1,
      initialize_tools ext (openai_api_key w) (serper_api_key w) (selected_model w)
        (with_event s entered) = (Returned h, s1) ->
      composition_raises ext h topic include_news include_academic output_format = None ->
      In (Kickoff (composed_crew h topic include_news include_academic output_format)
            {[ "topic" := topic ]})
         (run_log run s)) as Hreached.
  { intros h s1 Hinit Hcomposed.
    pose proof (initialize_tools_log ext (openai_api_key w) (serper_api_key w)
                  (selected_model w) (with_event s entered)) as Hsame.
    rewrite Hinit in Hsame. simpl in Hsame.
    assert (exists tail,
               log (snd (run s))
               = log s ++ entered
                   :: Kickoff (composed_crew h topic include_news include_academic
                                 output_format) {[ "topic" := topic ]} :: tail)
      as [tail Hlog].
    { subst run. rewrite run_research_pipeline_unfold, run_research_pipeline_try_unfold.
      fold entered. rewrite Hinit, Hcomposed. cbv zeta.
      destruct (kickoff_returns ext (log s1) _ _); simpl; rewrite Hsame, <- !app_assoc.
      - by eexists [_].
      - by exists []. }
    rewrite (run_log_app _ _ _ Hlog). right. by left. }
  destruct (run_research_pipeline_shape ext w topic include_news include_academic
              output_format s)
    as [(e & _ & Hres & Hlog)|[(h & e & _ & Hres & Hlog & Hk)|(h & text & _ & Hres & Hlog & Hk)]];
    fold run in Hres, Hlog, Hreached; fold entered in Hlog; try fold entered in Hk;
    rewrite Hlog in *; (split; [|split; [|exact Hreached]]).
  - intros crew inputs [?|[?|[]]]; discriminate.
  - intros text. rewrite Hres. discriminate.
  - intros crew inputs [?|[[= <- <-]|[?|[]]]]; try discriminate.
    rewrite Hk, Hres, dom_singleton_L. eauto 10.
  - intros text. rewrite Hres. discriminate.
  - intros crew inputs [?|[[= <- <-]|[]]]; try discriminate.
    rewrite Hk, Hres, dom_singleton_L. eauto 10.
  - intros text' Heq. rewrite Hres in Heq. injection Heq as <-. eauto.
Qed.

(** ** Agent Definitions *)

(** C8, as the code has it: [initialize_agents] defines exactly two
    agents, with the roles "Research Specialist" and "Technical Research
    Writer", each bound to the model handle and to the search handle it was
    given; in every crew the pipeline submits, the two agents are these,
    bound to the one pair of handles cached for the widget values. *)
Theorem agent_definitions (ext : Collaborators) (w : Widgets) (s : Process)
    (llm0 : LLM) (search_tool : SearchTool)
    (topic : string) (include_news include_academic : bool) (output_format : string) :
  (exists ra wa,
      role ra = "Research Specialist" /\ role wa = "Technical Research Writer" /\
      llm ra = llm0 /\ llm wa = llm0 /\
      tools ra = [search_tool] /\ tools wa = [search_tool] /\
      (initialize_agents ext llm0 search_tool s = (Returned (ra, wa), s) \/
       exists e, initialize_agents ext llm0 search_tool s = (Raised e, s) /\
                 (Agent_raises ext ra = Some e \/ Agent_raises ext wa = Some e))) /\
  forall crew inputs,
    In (Kickoff crew inputs)
       (run_log (run_research_pipeline ext w topic include_news include_academic
                   output_format) s) ->
    exists h ra wa,
      cache (snd (run_research_pipeline ext w topic include_news include_academic
                    output_format s))
        !! (openai_api_key w, serper_api_key w, selected_model w) = Some h /\
      agents crew = [ra; wa] /\
      role ra = "Research Specialist" /\ role wa = "Technical Research Writer" /\
      llm ra = h.1 /\ llm wa = h.1 /\
      tools ra = [h.2] /\ tools wa = [h.2].
Proof.
  split.
  - exists (research_agent llm0 search_tool), (writer_agent llm0 search_tool).
    repeat (split; [reflexivity|]).
    unfold initialize_agents, Agent, bind, check, ret, raise.
    destruct (Agent_raises ext (research_agent llm0 search_tool)) as [e|] eqn:Hra;
      [right; exists e; auto|].
    destruct (Agent_raises ext (writer_agent llm0 search_tool)) as [e|] eqn:Hwa;
      [right; exists e; auto|].
    by left.
  - intros crew inputs Hin.
    apply submitted_crew in Hin as (h & Hh & -> & _).
    exists h, (research_agent h.1 h.2), (writer_agent h.1 h.2).
    split; [exact Hh|]. repeat (split; [reflexivity|]). reflexivity.
Qed.

(** C8 as stated fails: with collaborators that accept every agent, the
    role of the second agent is not "Technical Writer". *)
Lemma agent_roles_counterexample :
  let llm0 := {| llm_id := 0; llm_model := "gpt-4o-mini"; llm_temperature := (3 # 10)%Q;
                 llm_openai_api_key := "sk-demo" |} in
  let search_tool := {| tool_id := 1; tool_api_key := "serper-demo" |} in
  exists ra wa,
    initialize_agents demo_ext llm0 search_tool fresh_process
    = (Returned (ra, wa), fresh_process) /\
    (role ra, role wa) <> stated_roles.
Proof.
  intros llm0 search_tool. eexists _, _. split; [reflexivity|]. discriminate.
Qed.

(** ** The "Start Research" button *)

Lemma empty_topic_log (ext : Collaborators) (w : Widgets) (s : Process) :
  topic w = "" ->
  fst (start_research ext w s) = Returned tt /\
  run_log (start_research ext w) s
  = [Warning "Please enter the research topic"] ++ [Success success_banner].
Proof.
  intros Hempty. rewrite start_research_unfold, Hempty. simpl.
  split; [reflexivity|].
  apply run_log_app. by rewrite start_research_unfold, Hempty.
Qed.

(** C4: a press with an empty topic shows the warning and never enters the
    pipeline: no entry into [run_research_pipeline] and no [crew.kickoff]
    is logged, and neither the cache nor the objects of the process
    change. *)
Theorem empty_topic_never_reaches_pipeline (ext : Collaborators) (w : Widgets)
    (s : Process) (Hempty : topic w = "") :
  fst (start_research ext w s) = Returned tt /\
  In (Warning "Please enter the research topic") (run_log (start_research ext w) s) /\
  (forall t n a f,
      ~ In (Entered_run_research_pipeline t n a f) (run_log (start_research ext w) s)) /\
  (forall crew inputs, ~ In (Kickoff crew inputs) (run_log (start_research ext w) s)) /\
  cache (snd (start_research ext w s)) = cache s /\
  next_id (snd (start_research ext w s)) = next_id s.
Proof.
  assert (run_log (start_research ext w) s
          = [Warning "Please enter the research topic"; Success success_banner]) as Hlog.
  { apply run_log_app. by rewrite start_research_unfold, Hempty. }
  rewrite Hlog, start_research_unfold, Hempty. simpl.
  split; [reflexivity|]. split; [by left|].
  split; [intros t n a f [?|[?|[]]]; discriminate|].
  split; [intros crew inputs [?|[?|[]]]; discriminate|]. auto.
Qed.

(** Conversely, a press with a topic does enter the pipeline. *)
Lemma nonempty_topic_enters_pipeline (ext : Collaborators) (w : Widgets) (s : Process) :
  truthy (topic w) = true ->
  In (Entered_run_research_pipeline (topic w) (include_news w) (include_academic w)
        (output_format w))
     (run_log (start_research ext w) s).
Proof.
  intros Htopic.
  destruct (start_research_log ext w s Htopic) as (_ & _ & _ & Hlog).
  destruct (run_research_pipeline_try_log ext w (topic w) (include_news w)
              (include_academic w) (output_format w)
              (with_event s (Spinner spinner_text))) as (calls & Htry & _).
  cbv zeta in Hlog, Htry. rewrite Htry in Hlog. simpl in Hlog.
  rewrite <- !app_assoc in Hlog. rewrite (run_log_app _ _ _ Hlog). simpl. auto.
Qed.

(** ** Result Rendering *)

(** C5, as the code has it: when the [try] block raises, the pipeline
    returns [None] and the block under the spinner renders exactly one
    error message, "Error: " followed by the description of the failure,
    no report heading and no report block; the divider and the "Powered
    by" footer are still rendered after the error message. *)
Theorem failure_rendering (ext : Collaborators) (w : Widgets) (s : Process)
    (e : Exception)
    (Hfail : fst (run_research_pipeline_try ext w (topic w) (include_news w)
                    (include_academic w) (output_format w) s) = Raised e) :
  fst (run_research_pipeline ext w (topic w) (include_news w) (include_academic w)
         (output_format w) s) = Returned None /\
  rendered (run_log (research_block ext w) s)
  = [Error ("Error: " +:+ str e); Divider; Markdown powered_by true].
Proof.
  destruct (run_research_pipeline_log ext w (topic w) (include_news w) (include_academic w)
              (output_format w) s) as (_ & _ & Hrun).
  cbv zeta in Hrun. rewrite Hfail in Hrun. destruct Hrun as [Hres Hlog].
  split; [exact Hres|].
  destruct (run_research_pipeline_try_log ext w (topic w) (include_news w)
              (include_academic w) (output_format w) s) as (calls & Htry & Hcalls & _).
  cbv zeta in Htry, Hcalls.
  assert (rendered calls = []) as Hquiet.
  { destruct Hcalls as [->|(h & _ & -> & _)]; reflexivity. }
  erewrite run_log_app; cycle 1.
  { rewrite (research_block_unfold ext w s None Hres). simpl.
    rewrite Hlog, Htry, <- !app_assoc. reflexivity. }
  unfold rendered in *. simpl. rewrite List.filter_app, Hquiet. reflexivity.
Qed.

(** C5 as stated fails: with an empty model key the initialiser raises, and
    the press still renders the divider, the footer and the banner after
    the error message. *)
Lemma failure_rendering_counterexample :
  fst (run_research_pipeline_try demo_ext keyless_widgets (topic keyless_widgets)
         (include_news keyless_widgets) (include_academic keyless_widgets)
         (output_format keyless_widgets)
         (with_event fresh_process (Spinner spinner_text)))
  = Raised (mkException "The api_key client option must be set") /\
  rendered (run_log (start_research demo_ext keyless_widgets) fresh_process)
  = [Spinner spinner_text;
     Error "Error: The api_key client option must be set";
     Divider; Markdown powered_by true; Success success_banner] /\
  ~ rendering_suppressed_after_error
      (run_log (start_research demo_ext keyless_widgets) fresh_process).
Proof.
  assert (rendered (run_log (start_research demo_ext keyless_widgets) fresh_process)
          = [Spinner spinner_text;
             Error "Error: The api_key client option must be set";
             Divider; Markdown powered_by true; Success success_banner]) as Hlog
    by (vm_compute; reflexivity).
  split; [vm_compute; reflexivity|]. split; [exact Hlog|].
  intros Hsuppressed.
  specialize (Hsuppressed [Spinner spinner_text]
                "Error: The api_key client option must be set"
                [Divider; Markdown powered_by true; Success success_banner] Hlog).
  discriminate Hsuppressed.
Qed.

(** C10: every press of the button ends by rendering the success banner
    and returns normally, on every path: after the warning when the topic
    is empty, and after the error message when the pipeline failed. *)
Theorem success_banner_on_every_path (ext : Collaborators) (w : Widgets) (s : Process) :
  fst (start_research ext w s) = Returned tt /\
  exists before,
    run_log (start_research ext w) s = before ++ [Success "✅ Research complete!"] /\
    (topic w = "" -> before = [Warning "Please enter the research topic"]) /\
    (forall e,
        truthy (topic w) = true ->
        fst (run_research_pipeline_try ext w (topic w) (include_news w)
               (include_academic w) (output_format w)
               (with_event s (Spinner spinner_text))) = Raised e ->
        In (Error ("Error: " +:+ str e)) before).
Proof.
  destruct (truthy (topic w)) eqn:Htopic.
  - destruct (start_research_log ext w s Htopic) as (Hres & _ & _ & Hlog).
    destruct (run_research_pipeline_try_log ext w (topic w) (include_news w)
                (include_academic w) (output_format w)
                (with_event s (Spinner spinner_text))) as (calls & Htry & _).
    cbv zeta in Hlog, Htry. rewrite Htry in Hlog. simpl in Hlog.
    split; [exact Hres|].
    set (shown := match fst (run_research_pipeline_try ext w (topic w) (include_news w)
                               (include_academic w) (output_format w)
                               (with_event s (Spinner spinner_text))) with
                  | Returned r =>
                      if truthy_result r
                      then [Markdown report_heading false;
                            Markdown (report_block (default "None" r)) true]
                      else []
                  | Raised e => [Error ("Error: " +:+ str e)]
                  end) in *.
    exists (Spinner spinner_text
              :: Entered_run_research_pipeline (topic w) (include_news w)
                   (include_academic w) (output_format w)
              :: calls ++ shown ++ [Divider; Markdown powered_by true]).
    split.
    + apply run_log_app. rewrite Hlog, <- !app_assoc. simpl.
      rewrite <- !app_assoc. reflexivity.
    + split; [intros Hempty; rewrite Hempty in Htopic; discriminate|].
      intros e _ Hfail. subst shown. rewrite Hfail. right. right.
      apply in_or_app. right. by left.
  - destruct (topic w) eqn:Hempty; [|discriminate].
    assert (topic w = "") as Hw by exact Hempty.
    destruct (empty_topic_log ext w s Hw) as [Hres Hlog].
    split; [exact Hres|].
    exists [Warning "Please enter the research topic"].
    split; [exact Hlog|]. split; [reflexivity|]. discriminate.
Qed.

(** ** Tool/Model Initializer: the cache *)

Lemma cache_wf_fresh : cache_wf fresh_process.
Proof. split; intros *; simpl; rewrite ?lookup_empty; discriminate. Qed.

Lemma cache_wf_store (s s' : Process) :
  cache s' = cache s -> next_id s' = next_id s -> cache_wf s -> cache_wf s'.
Proof. unfold cache_wf. intros -> ->. auto. Qed.

Lemma initialize_tools_wf (ext : Collaborators) (k1 k2 k3 : string) (s : Process) :
  cache_wf s -> cache_wf (snd (initialize_tools ext k1 k2 k3 s)).
Proof.
  intros [Hold Hdistinct]. rewrite initialize_tools_unfold.
  destruct (cache s !! (k1, k2, k3)) eqn:Hmiss; [by split|].
  destruct (ChatOpenAI_raises ext _ _ _); [by split|].
  destruct (SerperDevTool_raises ext _); simpl.
  - split; simpl; [|exact Hdistinct].
    intros k h Hk. destruct (Hold k h Hk). lia.
  - split; simpl.
    + intros k h. rewrite lookup_insert. case_decide.
      * intros [= <-]. simpl. lia.
      * intros Hk. destruct (Hold k h Hk). lia.
    + intros ka kb ha hb Hne. rewrite !lookup_insert.
      unfold distinct_handles. repeat case_decide; try congruence.
      * intros [= <-] Hb. destruct (Hold kb hb Hb). simpl. lia.
      * intros Ha [= <-]. destruct (Hold ka ha Ha). simpl. lia.
      * intros Ha Hb. exact (Hdistinct ka kb ha hb Hne Ha Hb).
Qed.

Lemma initialize_tools_keeps (ext : Collaborators) (k1 k2 k3 : string) (s : Process) :
  keeps_cache s (snd (initialize_tools ext k1 k2 k3 s)).
Proof.
  intros k h Hk. rewrite initialize_tools_unfold.
  destruct (cache s !! (k1, k2, k3)) eqn:Hmiss; [exact Hk|].
  destruct (ChatOpenAI_raises ext _ _ _); [exact Hk|].
  destruct (SerperDevTool_raises ext _); simpl; [exact Hk|].
  rewrite lookup_insert_ne; [exact Hk|]. intros <-. congruence.
Qed.

(** The store after the [try] block is the store after its call of
    [initialize_tools]. *)
Lemma run_research_pipeline_try_store (ext : Collaborators) (w : Widgets)
    (topic : string) (include_news include_academic : bool) (output_format : string)
    (s : Process) :
  let entered := Entered_run_research_pipeline topic include_news include_academic
                   output_format in
  let init := initialize_tools ext (openai_api_key w) (serper_api_key w) (selected_model w)
                (with_event s entered) in
  let attempt := run_research_pipeline_try ext w topic include_news include_academic
                   output_format s in
  cache (snd attempt) = cache (snd init) /\ next_id (snd attempt) = next_id (snd init).
Proof.
  intros entered init attempt. subst attempt. rewrite run_research_pipeline_try_unfold.
  fold entered. fold init.
  destruct init as [[h|e] s1]; [|by split].
  destruct (composition_raises _ _ _ _ _ _); [by split|].
  cbv zeta. destruct (kickoff_returns ext _ _ _); by split.
Qed.

(** Every action keeps the invariant and every entry of the store. *)
Lemma perform_wf (ext : Collaborators) (s : Process) (a : Action) :
  cache_wf s -> cache_wf (perform ext s a) /\ keeps_cache s (perform ext s a).
Proof.
  intros Hwf. destruct a as [k1 k2 k3|w]; simpl.
  - split; [by apply initialize_tools_wf|apply initialize_tools_keeps].
  - destruct (truthy (topic w)) eqn:Htopic.
    + destruct (start_research_log ext w s Htopic) as (_ & Hcache & Hid & _).
      destruct (run_research_pipeline_try_store ext w (topic w) (include_news w)
                  (include_academic w) (output_format w)
                  (with_event s (Spinner spinner_text))) as [Hcache' Hid'].
      cbv zeta in Hcache, Hid, Hcache', Hid'.
      rewrite Hcache' in Hcache. rewrite Hid' in Hid.
      set (s0 := with_event (with_event s (Spinner spinner_text)) _) in *.
      assert (cache_wf s0) as Hwf0 by (by apply (cache_wf_store s)).
      split.
      * apply (cache_wf_store _ _ Hcache Hid). by apply initialize_tools_wf.
      * intros k h Hk. rewrite Hcache. by apply initialize_tools_keeps.
    + destruct (topic w) eqn:Hempty; [|discriminate].
      assert (topic w = "") as Hw by exact Hempty.
      rewrite start_research_unfold, Hw. simpl.
      split; [by apply (cache_wf_store s)|by intros k h Hk].
Qed.

Lemma perform_all_wf (ext : Collaborators) (acts : list Action) (s : Process) :
  cache_wf s ->
  cache_wf (perform_all ext acts s) /\ keeps_cache s (perform_all ext acts s).
Proof.
  revert s. induction acts as [|a acts IH]; intros s Hwf; simpl.
  - split; [exact Hwf|by intros k h Hk].
  - destruct (perform_wf ext s a Hwf) as [Hwf1 Hkeep1].
    destruct (IH _ Hwf1) as [Hwf2 Hkeep2].
    split; [exact Hwf2|]. intros k h Hk. by apply Hkeep2, Hkeep1.
Qed.

(** C6: once a call of the initialiser has returned a pair for an argument
    triple, every later call in the process with the same triple returns
    that very pair and leaves the process as it is (no client is created),
    whatever happened in between; the entry is never dropped from the
    cache; and a call whose triple differs in any argument returns a pair
    that shares no object with it. *)
Theorem initialize_tools_cached_identity (ext : Collaborators)
    (earlier later : list Action) (k1 k2 k3 : string) (h : ToolHandles) (s1 : Process)
    (Hfirst : initialize_tools ext k1 k2 k3 (perform_all ext earlier fresh_process)
              = (Returned h, s1)) :
  initialize_tools ext k1 k2 k3 (perform_all ext later s1)
  = (Returned h, perform_all ext later s1) /\
  cache (perform_all ext later s1) !! (k1, k2, k3) = Some h /\
  forall k1' k2' k3' h' s3,
    (k1', k2', k3') <> (k1, k2, k3) ->
    initialize_tools ext k1' k2' k3' (perform_all ext later s1) = (Returned h', s3) ->
    distinct_handles h h'.
Proof.
  destruct (perform_all_wf ext earlier fresh_process cache_wf_fresh) as [Hwf0 _].
  pose proof (initialize_tools_wf ext k1 k2 k3 _ Hwf0) as Hwf1.
  pose proof (initialize_tools_cached ext k1 k2 k3 _ _ _ Hfirst) as Hcached1.
  rewrite Hfirst in Hwf1. simpl in Hwf1.
  destruct (perform_all_wf ext later s1 Hwf1) as [Hwf2 Hkeep2].
  pose proof (Hkeep2 _ _ Hcached1) as Hcached2.
  split; [by rewrite initialize_tools_unfold, Hcached2|].
  split; [exact Hcached2|].
  intros k1' k2' k3' h' s3 Hne Hother.
  pose proof (initialize_tools_wf ext k1' k2' k3' _ Hwf2) as [_ Hdistinct].
  pose proof (initialize_tools_keeps ext k1' k2' k3' (perform_all ext later s1)
                _ _ Hcached2) as Hcached3.
  rewrite Hother in Hdistinct, Hcached3. simpl in Hdistinct, Hcached3.
  apply (Hdistinct (k1, k2, k3) (k1', k2', k3')); [congruence|exact Hcached3|].
  by apply (initialize_tools_cached ext k1' k2' k3' (perform_all ext later s1)).
Qed.

(** ** The properties at concrete runs *)

Lemma demo_run_submits : In (Kickoff demo_crew demo_inputs) (run_log demo_run fresh_process).
Proof. vm_compute. right. left. reflexivity. Defined.

Lemma research_description_concatenation_witness :
  In (Kickoff demo_crew demo_inputs) (run_log demo_run fresh_process) /\
  exists r wt,
    tasks demo_crew = [r; wt] /\
    description r
    = "Find key information about: Quantum Computing Advances 2024 Include the latest news articles.".
Proof.
  split; [exact demo_run_submits|].
  apply (proj2 (research_description_concatenation demo_ext demo_widgets fresh_process
                  "Quantum Computing Advances 2024" true false "Markdown")
           demo_crew demo_inputs).
  exact demo_run_submits.
Defined.

Lemma research_expected_output_two_way_witness :
  In (Kickoff demo_crew demo_inputs) (run_log demo_run fresh_process) /\
  exists r wt,
    tasks demo_crew = [r; wt] /\
    expected_output r = "Bullet points of key facts and recent developments.".
Proof.
  split; [exact demo_run_submits|].
  apply (proj2 (proj2 (research_expected_output_two_way demo_ext demo_widgets fresh_process
                         (research_agent demo_handles.1 demo_handles.2)
                         "Quantum Computing Advances 2024" true false "Markdown"))
           demo_crew demo_inputs).
  exact demo_run_submits.
Defined.

Lemma writing_task_texts_witness :
  In (Kickoff demo_crew demo_inputs) (run_log demo_run fresh_process) /\
  exists r wt,
    tasks demo_crew = [r; wt] /\
    description wt
    = "Create structured report on: Quantum Computing Advances 2024 in Markdown format." /\
    occur_in_order sections (expected_output wt).
Proof.
  split; [exact demo_run_submits|].
  apply (proj2 (proj2 (writing_task_texts demo_ext demo_widgets fresh_process
                         (writer_agent demo_handles.1 demo_handles.2)
                         (research_task (research_agent demo_handles.1 demo_handles.2)
                            "Quantum Computing Advances 2024" true false)
                         "Quantum Computing Advances 2024" true false "Markdown"))
           demo_crew demo_inputs).
  exact demo_run_submits.
Defined.

Lemma empty_topic_never_reaches_pipeline_witness :
  topic blank_widgets = "" /\
  In (Warning "Please enter the research topic")
     (run_log (start_research demo_ext blank_widgets) fresh_process) /\
  forall crew inputs,
    ~ In (Kickoff crew inputs) (run_log (start_research demo_ext blank_widgets) fresh_process).
Proof.
  split; [reflexivity|].
  pose proof (empty_topic_never_reaches_pipeline demo_ext blank_widgets fresh_process
                eq_refl) as (_ & Hwarning & _ & Hkickoff & _).
  split; [exact Hwarning|exact Hkickoff].
Defined.

Lemma failure_rendering_witness :
  fst (run_research_pipeline_try demo_ext keyless_widgets (topic keyless_widgets)
         (include_news keyless_widgets) (include_academic keyless_widgets)
         (output_format keyless_widgets) fresh_process)
  = Raised (mkException "The api_key client option must be set") /\
  rendered (run_log (research_block demo_ext keyless_widgets) fresh_process)
  = [Error "Error: The api_key client option must be set"; Divider;
     Markdown powered_by true].
Proof.
  split; [vm_compute; reflexivity|].
  apply (failure_rendering demo_ext keyless_widgets fresh_process
           (mkException "The api_key client option must be set")).
  vm_compute. reflexivity.
Defined.

Lemma initialize_tools_cached_identity_witness :
  initialize_tools demo_ext "sk-demo" "serper-demo" "gpt-4o-mini"
    (perform_all demo_ext [] fresh_process)
  = (Returned demo_handles,
     {| next_id := 2;
        cache := {[ ("sk-demo", "serper-demo", "gpt-4o-mini") := demo_handles ]};
        log := [] |}) /\
  cache (perform_all demo_ext
           [Press_Start_Research demo_widgets;
            Call_initialize_tools "sk-demo" "serper-demo" "gpt-3.5-turbo"]
           {| next_id := 2;
              cache := {[ ("sk-demo", "serper-demo", "gpt-4o-mini") := demo_handles ]};
              log := [] |})
    !! ("sk-demo", "serper-demo", "gpt-4o-mini") = Some demo_handles.
Proof.
  split; [vm_compute; reflexivity|].
  apply (initialize_tools_cached_identity demo_ext []
           [Press_Start_Research demo_widgets;
            Call_initialize_tools "sk-demo" "serper-demo" "gpt-3.5-turbo"]
           "sk-demo" "serper-demo" "gpt-4o-mini" demo_handles).
  vm_compute. reflexivity.
Defined.

Lemma dependency_graph_one_edge_acyclic_witness :
  In (Kickoff demo_crew demo_inputs) (run_log demo_run fresh_process) /\
  exists r wt,
    tasks demo_crew = [r; wt] /\
    dependencies wt = [r] /\
    dependencies r = [] /\
    (forall a b, depends_on (tasks demo_crew) a b <-> a = wt /\ b = r) /\
    (forall t, ~ tc (depends_on (tasks demo_crew)) t t).
Proof.
  split; [exact demo_run_submits|].
  apply (proj2 (dependency_graph_one_edge_acyclic demo_ext demo_widgets fresh_process
                  (research_agent demo_handles.1 demo_handles.2)
                  (writer_agent demo_handles.1 demo_handles.2)
                  "Quantum Computing Advances 2024" true false "Markdown")
           demo_crew demo_inputs).
  exact demo_run_submits.
Defined.

Lemma agent_definitions_witness :
  In (Kickoff demo_crew demo_inputs) (run_log demo_run fresh_process) /\
  exists h ra wa,
    cache (snd (demo_run fresh_process)) !! ("sk-demo", "serper-demo", "gpt-4o-mini") = Some h /\
    agents demo_crew = [ra; wa] /\
    role ra = "Research Specialist" /\ role wa = "Technical Research Writer" /\
    llm ra = h.1 /\ llm wa = h.1 /\
    tools ra = [h.2] /\ tools wa = [h.2].
Proof.
  split; [exact demo_run_submits|].
  apply (proj2 (agent_definitions demo_ext demo_widgets fresh_process demo_handles.1
                  demo_handles.2 "Quantum Computing Advances 2024" true false "Markdown")
           demo_crew demo_inputs).
  exact demo_run_submits.
Defined.

Lemma orchestration_submission_witness :
  In (Kickoff demo_crew demo_inputs) (run_log demo_run fresh_process) /\
  length (agents demo_crew) = 2 /\
  length (tasks demo_crew) = 2 /\
  dom demo_inputs = {[ "topic" ]} /\
  fst (demo_run fresh_process) = Returned (Some "REPORT").
Proof.
  split; [exact demo_run_submits|].
  pose proof (proj1 (orchestration_submission demo_ext demo_widgets fresh_process
                       "Quantum Computing Advances 2024" true false "Markdown")
                demo_crew demo_inputs demo_run_submits)
    as (_ & Hagents & Htasks & _ & Hdom & Hresult).
  split; [exact Hagents|]. split; [exact Htasks|]. split; [exact Hdom|]. exact Hresult.
Defined.

Lemma success_banner_on_every_path_witness :
  truthy (topic keyless_widgets) = true /\
  fst (run_research_pipeline_try demo_ext keyless_widgets (topic keyless_widgets)
         (include_news keyless_widgets) (include_academic keyless_widgets)
         (output_format keyless_widgets)
         (with_event fresh_process (Spinner spinner_text)))
  = Raised (mkException "The api_key client option must be set") /\
  exists before,
    run_log (start_research demo_ext keyless_widgets) fresh_process
    = before ++ [Success "✅ Research complete!"] /\
    In (Error "Error: The api_key client option must be set") before.
Proof.
  split; [reflexivity|]. split; [vm_compute; reflexivity|].
  destruct (success_banner_on_every_path demo_ext keyless_widgets fresh_process)
    as (_ & before & Hlog & _ & Herror).
  exists before. split; [exact Hlog|].
  apply (Herror (mkException "The api_key client option must be set")).
  - reflexivity.
  - vm_compute. reflexivity.
Defined.

(** * Further properties of the script *)

(** ** One press, event by event *)

(** The events of a press with a topic: the spinner, the entry into the
    pipeline, at most one submission, what Result Rendering shows for the
    outcome, the divider, the footer and the banner. *)
Lemma start_research_events (ext : Collaborators) (w : Widgets) (s : Process) :
  truthy (topic w) = true ->
  let attempt := run_research_pipeline_try ext w (topic w) (include_news w)
                   (include_academic w) (output_format w)
                   (with_event s (Spinner spinner_text)) in
  exists calls,
    run_log (start_research ext w) s
    = Spinner spinner_text
        :: Entered_run_research_pipeline (topic w) (include_news w) (include_academic w)
             (output_format w)
        :: calls ++ result_elements (fst attempt)
             ++ [Divider; Markdown powered_by true; Success success_banner] /\
    (calls = [] \/
     exists h,
       cache (snd (start_research ext w s)) !! widget_key w = Some h /\
       calls = [Kickoff (composed_crew h (topic w) (include_news w) (include_academic w)
                           (output_format w)) {[ "topic" := topic w ]}]) /\
    (forall r, fst attempt = Returned r -> exists text, r = Some text /\ calls <> []).
Proof.
  intros Htopic attempt.
  destruct (start_research_log ext w s Htopic) as (_ & Hcache & _ & Hlog).
  destruct (run_research_pipeline_try_log ext w (topic w) (include_news w)
              (include_academic w) (output_format w)
              (with_event s (Spinner spinner_text))) as (calls & Htry & Hcalls & Hret).
  cbv zeta in Hcache, Hlog, Htry, Hcalls, Hret.
  fold attempt in Hcache, Hlog, Htry, Hcalls, Hret.
  exists calls. split; [|split; [|exact Hret]].
  - apply run_log_app. rewrite Hlog, Htry. simpl. rewrite <- !app_assoc. reflexivity.
  - destruct Hcalls as [->|(h & Hh & -> & _)]; [by left|].
    right. exists h. unfold widget_key. rewrite Hcache. auto.
Qed.

(** X1: a press with any non-empty topic, blank ones included, shows the
    spinner first, then enters the pipeline once, with the values of the
    widgets, and shows no warning. *)
Theorem nonempty_topic_press (ext : Collaborators) (w : Widgets) (s : Process)
    (Htopic : topic w <> "") :
  exists rest,
    run_log (start_research ext w) s
    = Spinner spinner_text
        :: Entered_run_research_pipeline (topic w) (include_news w) (include_academic w)
             (output_format w)
        :: rest /\
    (forall t n a f, ~ In (Entered_run_research_pipeline t n a f) rest) /\
    (forall body, ~ In (Warning body) (run_log (start_research ext w) s)).
Proof.
  assert (truthy (topic w) = true) as Htruthy by (by destruct (topic w)).
  destruct (start_research_events ext w s Htruthy) as (calls & Hlog & Hcalls & _).
  cbv zeta in Hlog.
  set (shown := result_elements _) in Hlog.
  assert (forall e, In e (calls ++ shown ++ [Divider; Markdown powered_by true;
                                             Success success_banner]) ->
                    is_element e = true \/ is_kickoff e = true) as Hkinds.
  { intros e Hin. apply in_app_or in Hin as [Hin|Hin].
    - destruct Hcalls as [->|(h & _ & ->)]; [destruct Hin|].
      destruct Hin as [<-|[]]. by right.
    - left. apply in_app_or in Hin as [Hin|Hin].
      + subst shown. unfold result_elements in Hin.
        destruct (fst _) as [r|e0]; [destruct (truthy_result r)|].
        * destruct Hin as [<-|[<-|[]]]; reflexivity.
        * destruct Hin.
        * destruct Hin as [<-|[]]. reflexivity.
      + destruct Hin as [<-|[<-|[<-|[]]]]; reflexivity. }
  eexists. split; [exact Hlog|]. split.
  - intros t n a f Hin. apply Hkinds in Hin as [Hk|Hk]; discriminate Hk.
  - intros body. rewrite Hlog. intros [Hin|[Hin|Hin]]; try discriminate Hin.
    apply in_app_or in Hin as [Hin|Hin].
    + destruct Hcalls as [->|(h & _ & ->)]; [destruct Hin|].
      destruct Hin as [Hin|[]]. discriminate Hin.
    + apply in_app_or in Hin as [Hin|Hin].
      * subst shown. unfold result_elements in Hin.
        destruct (fst _) as [r|e0]; [destruct (truthy_result r)|].
        -- destruct Hin as [Hin|[Hin|[]]]; discriminate Hin.
        -- destruct Hin.
        -- destruct Hin as [Hin|[]]. discriminate Hin.
      * destruct Hin as [Hin|[Hin|[Hin|[]]]]; discriminate Hin.
Qed.

(** X2: when the engine returned a non-empty text, the press renders, in
    this order, the spinner, the report heading, the text wrapped
    verbatim in the report block with HTML allowed, the divider, the
    footer and the banner, and no error message. *)
Theorem success_rendering (ext : Collaborators) (w : Widgets) (s : Process) (text : string)
    (Htopic : topic w <> "")
    (Hreturned : fst (run_research_pipeline_try ext w (topic w) (include_news w)
                        (include_academic w) (output_format w)
                        (with_event s (Spinner spinner_text))) = Returned (Some text))
    (Htext : text <> "") :
  rendered (run_log (start_research ext w) s)
  = [Spinner spinner_text;
     Markdown "## Research Report" false;
     Markdown ("<div class=" +:+ dquote +:+ "report-output" +:+ dquote +:+ ">"
                 +:+ text +:+ "</div>") true;
     Divider;
     Markdown powered_by true;
     Success success_banner].
Proof.
  assert (truthy (topic w) = true) as Htruthy by (by destruct (topic w)).
  assert (truthy text = true) as Htruthy' by (by destruct text).
  destruct (start_research_events ext w s Htruthy) as (calls & Hlog & Hcalls & _).
  cbv zeta in Hlog. rewrite Hreturned in Hlog. simpl in Hlog. rewrite Htruthy' in Hlog.
  rewrite Hlog. unfold rendered. simpl. rewrite List.filter_app.
  destruct Hcalls as [->|(h & _ & ->)]; reflexivity.
Qed.


(** X4: no retry: a press calls the engine at most once and shows at most
    one error message, whatever the collaborators do. *)
Theorem at_most_one_submission (ext : Collaborators) (w : Widgets) (s : Process) :
  length (List.filter is_kickoff (run_log (start_research ext w) s)) <= 1 /\
  length (List.filter is_error (run_log (start_research ext w) s)) <= 1.
Proof.
  destruct (truthy (topic w)) eqn:Htruthy.
  - destruct (start_research_events ext w s Htruthy) as (calls & Hlog & Hcalls & _).
    cbv zeta in Hlog. rewrite Hlog. simpl. rewrite !List.filter_app, !length_app.
    assert (length (List.filter is_kickoff calls) <= 1 /\
            length (List.filter is_error calls) = 0) as [Hk He].
    { destruct Hcalls as [->|(h & _ & ->)]; simpl; lia. }
    assert (length (List.filter is_kickoff (result_elements (fst
              (run_research_pipeline_try ext w (topic w) (include_news w)
                 (include_academic w) (output_format w)
                 (with_event s (Spinner spinner_text)))))) = 0 /\
            length (List.filter is_error (result_elements (fst
              (run_research_pipeline_try ext w (topic w) (include_news w)
                 (include_academic w) (output_format w)
                 (with_event s (Spinner spinner_text)))))) <= 1) as [Hk' He'].
    { unfold result_elements.
      destruct (fst _) as [r|e]; [destruct (truthy_result r)|]; simpl; lia. }
    simpl. lia.
  - destruct (topic w) eqn:Hempty; [|discriminate].
    assert (topic w = "") as Hw by exact Hempty.
    destruct (empty_topic_log ext w s Hw) as [_ Hlog]. rewrite Hlog. simpl. lia.
Qed.

(** ** The pipeline: failures and results *)

(** X5: when the initialiser raises, or one of the agent, task or crew
    constructors does, the engine is never called: the run logs its entry
    and one error message built from that first failure, and returns
    [None]. *)
Theorem no_submission_after_earlier_failure (ext : Collaborators) (w : Widgets)
    (s : Process) (topic : string) (include_news include_academic : bool)
    (output_format : string) (e : Exception)
    (Hearly :
       fst (initialize_tools ext (openai_api_key w) (serper_api_key w) (selected_model w)
              (with_event s (Entered_run_research_pipeline topic include_news
                               include_academic output_format))) = Raised e \/
       exists h,
         fst (initialize_tools ext (openai_api_key w) (serper_api_key w) (selected_model w)
                (with_event s (Entered_run_research_pipeline topic include_news
                                 include_academic output_format))) = Returned h /\
         composition_raises ext h topic include_news include_academic output_format
         = Some e) :
  fst (run_research_pipeline ext w topic include_news include_academic output_format s)
  = Returned None /\
  run_log (run_research_pipeline ext w topic include_news include_academic output_format) s
  = [Entered_run_research_pipeline topic include_news include_academic output_format;
     Error ("Error: " +:+ str e)] /\
  forall crew inputs,
    ~ In (Kickoff crew inputs)
        (run_log (run_research_pipeline ext w topic include_news include_academic
                    output_format) s).
Proof.
  set (entered := Entered_run_research_pipeline topic include_news include_academic
                    output_format) in *.
  pose proof (initialize_tools_log ext (openai_api_key w) (serper_api_key w)
                (selected_model w) (with_event s entered)) as Hsame.
  assert (run_research_pipeline ext w topic include_news include_academic output_format s
          = (Returned None,
             with_event (snd (initialize_tools ext (openai_api_key w) (serper_api_key w)
                                (selected_model w) (with_event s entered)))
               (Error ("Error: " +:+ str e)))) as Hrun.
  { rewrite run_research_pipeline_unfold, run_research_pipeline_try_unfold. fold entered.
    destruct (initialize_tools ext _ _ _ _) as [[h|e0] s1]; simpl in Hearly.
    - destruct Hearly as [Hr|(h' & [= <-] & ->)]; [discriminate Hr|reflexivity].
    - destruct Hearly as [[= ->]|(h' & Hr & _)]; [reflexivity|discriminate Hr]. }
  assert (run_log (run_research_pipeline ext w topic include_news include_academic
                     output_format) s
          = [entered; Error ("Error: " +:+ str e)]) as Hlog.
  { apply run_log_app. rewrite Hrun. simpl. rewrite Hsame. simpl.
    by rewrite <- app_assoc. }
  rewrite Hlog, Hrun. split; [reflexivity|]. split; [reflexivity|].
  intros crew inputs [Hin|[Hin|[]]]; discriminate Hin.
Qed.


(** X7: in every crew the pipeline submits, each task is owned by its own
    agent: the research task, flagged for asynchronous execution, by the
    Research Specialist, and the writing task, which passes no such flag,
    by the Technical Research Writer; both agents are verbose and without
    memory. *)
Theorem submitted_tasks_owned_by_their_agents (ext : Collaborators) (w : Widgets)
    (s : Process) (topic : string) (include_news include_academic : bool)
    (output_format : string) (crew : CrewSpec) (inputs : gmap string string)
    (Hin : In (Kickoff crew inputs)
              (run_log (run_research_pipeline ext w topic include_news include_academic
                          output_format) s)) :
  exists ra wa r wt,
    agents crew = [ra; wa] /\ tasks crew = [r; wt] /\
    agent r = ra /\ agent wt = wa /\
    role ra = "Research Specialist" /\ role wa = "Technical Research Writer" /\
    async_execution r = Some true /\ async_execution wt = None /\
    verbose ra = true /\ verbose wa = true /\ memory ra = false /\ memory wa = false.
Proof.
  apply submitted_crew in Hin as (h & _ & -> & _).
  eexists _, _, _, _. repeat (split; [reflexivity|]). reflexivity.
Qed.

(** ** Task Composition: the texts can be read back *)

Lemma research_description_described
    (topic : string) (include_news include_academic : bool) :
  research_description topic include_news include_academic
  = described_research_description topic include_news include_academic.
Proof.
  unfold research_description, described_research_description.
  destruct include_news, include_academic;
    rewrite ?string_app_assoc, ?string_app_nil_r; reflexivity.
Qed.

(** X8: for one topic, the four combinations of the two flags give four
    different research descriptions: the flags can be read back from the
    description. *)
Theorem research_description_decodes_flags (topic : string)
    (include_news include_academic include_news' include_academic' : bool) :
  research_description topic include_news include_academic
  = research_description topic include_news' include_academic' ->
  include_news = include_news' /\ include_academic = include_academic'.
Proof.
  rewrite !research_description_described. unfold described_research_description.
  intros H.
  apply (String.app_inj "Find key information about: ") in H.
  apply (String.app_inj topic) in H.
  destruct include_news, include_academic, include_news', include_academic';
    vm_compute in H; try discriminate H; auto.
Qed.

Lemma list_ascii_of_string_app (a b : string) :
  String.list_ascii_of_string (a +:+ b)
  = String.list_ascii_of_string a ++ String.list_ascii_of_string b.
Proof.
  induction a as [|x a IH]; [reflexivity|].
  change (x :: String.list_ascii_of_string (a +:+ b)
          = x :: (String.list_ascii_of_string a ++ String.list_ascii_of_string b)).
  by rewrite IH.
Qed.

Lemma list_ascii_of_string_inj (a b : string) :
  String.list_ascii_of_string a = String.list_ascii_of_string b -> a = b.
Proof.
  intros H. rewrite <- (String.string_of_list_ascii_of_string a),
              <- (String.string_of_list_ascii_of_string b).
  by rewrite H.
Qed.

Lemma string_app_inv_tail (a a' b : string) : a +:+ b = a' +:+ b -> a = a'.
Proof.
  intros H. apply list_ascii_of_string_inj.
  apply (f_equal String.list_ascii_of_string) in H.
  rewrite !list_ascii_of_string_app in H. by apply app_inv_tail in H.
Qed.

(** The characters of a text that ends with [tail], last one first. *)
Lemma reversed_tail (a tail : string) :
  rev (String.list_ascii_of_string (a +:+ tail))
  = rev (String.list_ascii_of_string tail) ++ rev (String.list_ascii_of_string a).
Proof. by rewrite list_ascii_of_string_app, rev_app_distr. Qed.

(** X9: for the formats offered by the selector, the description of the
    writing task determines both the topic and the format, whatever the
    topic contains. *)
Theorem writing_description_decodes (writer_agent writer_agent' : AgentSpec)
    (research_task research_task' : TaskSpec) (topic topic' output_format output_format' : string)
    (Hformat : In output_format format_options)
    (Hformat' : In output_format' format_options)
    (Hsame : description (writing_task writer_agent research_task topic output_format)
             = description (writing_task writer_agent' research_task' topic' output_format')) :
  topic = topic' /\ output_format = output_format'.
Proof.
  unfold writing_task, description in Hsame.
  apply (String.app_inj "Create structured report on: ") in Hsame.
  unfold format_options in Hformat, Hformat'.
  destruct Hformat as [<-|[<-|[<-|[]]]]; destruct Hformat' as [<-|[<-|[<-|[]]]];
    try (split; [|reflexivity]; revert Hsame; apply string_app_inv_tail);
    apply (f_equal (fun x => rev (String.list_ascii_of_string x))) in Hsame;
    rewrite !reversed_tail in Hsame; simpl in Hsame; discriminate Hsame.
Qed.

(** ** The handles across the life of the process *)

Lemma initialize_tools_keyed (ext : Collaborators) (k1 k2 k3 : string) (s : Process) :
  cache_keyed s -> cache_keyed (snd (initialize_tools ext k1 k2 k3 s)).
Proof.
  intros Hkeyed. rewrite initialize_tools_unfold.
  destruct (cache s !! (k1, k2, k3)) eqn:Hmiss; [exact Hkeyed|].
  destruct (ChatOpenAI_raises ext _ _ _); [exact Hkeyed|].
  destruct (SerperDevTool_raises ext _); [exact Hkeyed|].
  intros a b c h. cbv zeta. simpl. rewrite lookup_insert. case_decide as Hkey.
  - injection Hkey as <- <- <-. intros [= <-]. auto.
  - apply Hkeyed.
Qed.

(** The store after a press with a topic is the store after its call of
    [initialize_tools], made on the store of before the press. *)
Lemma start_research_store (ext : Collaborators) (w : Widgets) (s : Process) :
  truthy (topic w) = true ->
  exists s0,
    cache s0 = cache s /\ next_id s0 = next_id s /\
    cache (snd (start_research ext w s))
    = cache (snd (initialize_tools ext (openai_api_key w) (serper_api_key w)
                    (selected_model w) s0)) /\
    next_id (snd (start_research ext w s))
    = next_id (snd (initialize_tools ext (openai_api_key w) (serper_api_key w)
                      (selected_model w) s0)).
Proof.
  intros Htopic.
  destruct (start_research_log ext w s Htopic) as (_ & Hcache & Hid & _).
  destruct (run_research_pipeline_try_store ext w (topic w) (include_news w)
              (include_academic w) (output_format w)
              (with_event s (Spinner spinner_text))) as [Hcache' Hid'].
  cbv zeta in Hcache, Hid, Hcache', Hid'.
  eexists. split; [|split; [|split]];
    [| |rewrite Hcache; exact Hcache'|rewrite Hid; exact Hid']; reflexivity.
Qed.

Lemma perform_keyed (ext : Collaborators) (s : Process) (a : Action) :
  cache_keyed s -> cache_keyed (perform ext s a).
Proof.
  intros Hkeyed. destruct a as [k1 k2 k3|w]; simpl.
  - by apply initialize_tools_keyed.
  - destruct (truthy (topic w)) eqn:Htopic.
    + destruct (start_research_store ext w s Htopic) as (s0 & Hs0 & _ & Hcache & _).
      unfold cache_keyed. rewrite Hcache.
      apply initialize_tools_keyed. unfold cache_keyed. by rewrite Hs0.
    + destruct (topic w) eqn:Hempty; [|discriminate].
      assert (topic w = "") as Hw by exact Hempty.
      by rewrite start_research_unfold, Hw.
Qed.

Lemma perform_all_keyed (ext : Collaborators) (acts : list Action) (s : Process) :
  cache_keyed s -> cache_keyed (perform_all ext acts s).
Proof.
  revert s. induction acts as [|a acts IH]; intros s Hkeyed; simpl; [exact Hkeyed|].
  by apply IH, perform_keyed.
Qed.

(** Every crew that a press submits is composed from the handles cached,
    after the press, under the triple of its widget values. *)
Lemma press_submitted_crew (ext : Collaborators) (w : Widgets) (s : Process)
    (crew : CrewSpec) (inputs : gmap string string) :
  In (Kickoff crew inputs) (run_log (start_research ext w) s) ->
  truthy (topic w) = true /\
  exists h,
    cache (snd (start_research ext w s)) !! widget_key w = Some h /\
    crew = composed_crew h (topic w) (include_news w) (include_academic w)
             (output_format w).
Proof.
  intros Hin. destruct (truthy (topic w)) eqn:Htruthy.
  - split; [reflexivity|].
    destruct (start_research_events ext w s Htruthy) as (calls & Hlog & Hcalls & _).
    cbv zeta in Hlog. rewrite Hlog in Hin.
    destruct Hin as [Hin|[Hin|Hin]]; try discriminate Hin.
    apply in_app_or in Hin as [Hin|Hin].
    + destruct Hcalls as [->|(h & Hh & ->)]; [destruct Hin|].
      destruct Hin as [[= <- <-]|[]]. eauto.
    + exfalso. apply in_app_or in Hin as [Hin|Hin].
      * unfold result_elements in Hin.
        destruct (fst _) as [r|e0]; [destruct (truthy_result r)|].
        -- destruct Hin as [Hin|[Hin|[]]]; discriminate Hin.
        -- destruct Hin.
        -- destruct Hin as [Hin|[]]. discriminate Hin.
      * destruct Hin as [Hin|[Hin|[Hin|[]]]]; discriminate Hin.
  - exfalso. destruct (topic w) eqn:Hempty; [|discriminate].
    assert (topic w = "") as Hw by exact Hempty.
    destruct (empty_topic_log ext w s Hw) as [_ Hlog]. rewrite Hlog in Hin.
    destruct Hin as [Hin|[Hin|[]]]; discriminate Hin.
Qed.

(** X10: at any point of the life of the process, the crew that a press
    submits runs on the model and with the keys that the widgets hold at
    that press: every agent is bound to a model handle made for the
    selected model, the model key and temperature 0.3, and to one search
    tool made for the search key, whatever was cached by earlier runs. *)
Theorem submitted_handles_match_widgets (ext : Collaborators) (earlier : list Action)
    (w : Widgets) (crew : CrewSpec) (inputs : gmap string string) (a : AgentSpec)
    (Hin : In (Kickoff crew inputs)
              (run_log (start_research ext w) (perform_all ext earlier fresh_process)))
    (Hagent : In a (agents crew)) :
  llm_model (llm a) = selected_model w /\
  llm_openai_api_key (llm a) = openai_api_key w /\
  llm_temperature (llm a) = (3 # 10)%Q /\
  map tool_api_key (tools a) = [serper_api_key w].
Proof.
  assert (cache_keyed (perform_all ext (earlier ++ [Press_Start_Research w])
                         fresh_process)) as Hkeyed.
  { apply perform_all_keyed. intros k1 k2 k3 h. simpl. by rewrite lookup_empty. }
  unfold perform_all in Hkeyed. rewrite fold_left_app in Hkeyed. simpl in Hkeyed.
  apply press_submitted_crew in Hin as (_ & h & Hh & ->).
  destruct (Hkeyed _ _ _ _ Hh) as (Hmodel & Hkey & Htemperature & Hsearch).
  destruct Hagent as [<-|[<-|[]]]; simpl; rewrite Hmodel, Hkey, Htemperature, Hsearch; auto.
Qed.

(** X11: two presses of one process whose widgets hold the same keys and
    the same model submit the same two agents, bound to the same handle
    objects, whatever happened in between and whatever the topics; the
    second press creates no client. *)
Theorem presses_with_same_keys_share_agents (ext : Collaborators)
    (earlier between : list Action) (w w' : Widgets)
    (crew crew' : CrewSpec) (inputs inputs' : gmap string string)
    (Hkeys : widget_key w' = widget_key w)
    (Hfirst : In (Kickoff crew inputs)
                 (run_log (start_research ext w) (perform_all ext earlier fresh_process)))
    (Hsecond : In (Kickoff crew' inputs')
                  (run_log (start_research ext w')
                     (perform_all ext between
                        (snd (start_research ext w
                                (perform_all ext earlier fresh_process)))))) :
  agents crew' = agents crew /\
  next_id (snd (start_research ext w'
                  (perform_all ext between
                     (snd (start_research ext w
                             (perform_all ext earlier fresh_process))))))
  = next_id (perform_all ext between
               (snd (start_research ext w (perform_all ext earlier fresh_process)))).
Proof.
  set (s := perform_all ext earlier fresh_process) in *.
  set (s1 := snd (start_research ext w s)) in *.
  set (s2 := perform_all ext between s1) in *.
  destruct (perform_all_wf ext earlier fresh_process cache_wf_fresh) as [Hwf _].
  fold s in Hwf.
  destruct (perform_wf ext s (Press_Start_Research w) Hwf) as [Hwf1 _].
  simpl in Hwf1. fold s1 in Hwf1.
  destruct (perform_all_wf ext between s1 Hwf1) as [_ Hkeep2]. fold s2 in Hkeep2.
  apply press_submitted_crew in Hfirst as (_ & h & Hh & ->). fold s1 in Hh.
  apply press_submitted_crew in Hsecond as (Htopic' & h' & Hh' & ->).
  apply Hkeep2 in Hh. rewrite Hkeys in Hh'.
  destruct (start_research_store ext w' s2 Htopic') as (s0 & Hcache0 & Hid0 & Hcache & Hid).
  assert (initialize_tools ext (openai_api_key w') (serper_api_key w') (selected_model w') s0
          = (Returned h, s0)) as Hhit.
  { rewrite initialize_tools_unfold. fold (widget_key w'). by rewrite Hkeys, Hcache0, Hh. }
  rewrite Hhit in Hcache, Hid. simpl in Hcache, Hid.
  rewrite Hcache, Hcache0, Hh in Hh'. injection Hh' as <-.
  split; [reflexivity|]. by rewrite Hid.
Qed.

(** X12: two presses of one process whose widgets differ in a key or in
    the model submit agents that share no handle object. *)
Theorem presses_with_other_keys_share_no_handle (ext : Collaborators)
    (earlier between : list Action) (w w' : Widgets)
    (crew crew' : CrewSpec) (inputs inputs' : gmap string string) (a a' : AgentSpec)
    (Hkeys : widget_key w' <> widget_key w)
    (Hfirst : In (Kickoff crew inputs)
                 (run_log (start_research ext w) (perform_all ext earlier fresh_process)))
    (Hsecond : In (Kickoff crew' inputs')
                  (run_log (start_research ext w')
                     (perform_all ext between
                        (snd (start_research ext w
                                (perform_all ext earlier fresh_process))))))
    (Hagent : In a (agents crew))
    (Hagent' : In a' (agents crew')) :
  llm_id (llm a) <> llm_id (llm a') /\
  map tool_id (tools a) <> map tool_id (tools a').
Proof.
  set (s := perform_all ext earlier fresh_process) in *.
  set (s1 := snd (start_research ext w s)) in *.
  set (s2 := perform_all ext between s1) in *.
  destruct (perform_all_wf ext earlier fresh_process cache_wf_fresh) as [Hwf _].
  fold s in Hwf.
  destruct (perform_wf ext s (Press_Start_Research w) Hwf) as [Hwf1 _].
  simpl in Hwf1. fold s1 in Hwf1.
  destruct (perform_all_wf ext between s1 Hwf1) as [Hwf2 Hkeep2]. fold s2 in Hwf2, Hkeep2.
  destruct (perform_wf ext s2 (Press_Start_Research w') Hwf2) as [[_ Hdistinct] Hkeep3].
  simpl in Hdistinct, Hkeep3.
  apply press_submitted_crew in Hfirst as (_ & h & Hh & ->). fold s1 in Hh.
  apply press_submitted_crew in Hsecond as (_ & h' & Hh' & ->).
  apply Hkeep2, Hkeep3 in Hh.
  assert (widget_key w <> widget_key w') as Hne by congruence.
  destruct (Hdistinct _ _ _ _ Hne Hh Hh') as [Hllm Htool].
  destruct Hagent as [<-|[<-|[]]]; destruct Hagent' as [<-|[<-|[]]]; simpl;
    (split; [exact Hllm|intros [= Heq]; by apply Htool]).
Qed.

(** ** What is rendered as HTML *)


(** ** The further properties at concrete runs *)

Lemma demo_press_submits :
  In (Kickoff demo_crew demo_inputs)
     (run_log (start_research demo_ext demo_widgets) fresh_process).
Proof. vm_compute. right. right. left. reflexivity. Defined.

Lemma nonempty_topic_press_witness :
  topic space_widgets <> "" /\
  exists rest,
    run_log (start_research demo_ext space_widgets) fresh_process
    = Spinner spinner_text :: Entered_run_research_pipeline " " false true "Plain Text" :: rest /\
    forall body,
      ~ In (Warning body) (run_log (start_research demo_ext space_widgets) fresh_process).
Proof.
  assert (topic space_widgets <> "") as Htopic by discriminate.
  split; [exact Htopic|].
  destruct (nonempty_topic_press demo_ext space_widgets fresh_process Htopic)
    as (rest & Hlog & _ & Hwarning).
  exists rest. split; [exact Hlog|exact Hwarning].
Defined.

Lemma success_rendering_witness :
  topic demo_widgets <> "" /\
  rendered (run_log (start_research demo_ext demo_widgets) fresh_process)
  = [Spinner spinner_text;
     Markdown "## Research Report" false;
     Markdown ("<div class=" +:+ dquote +:+ "report-output" +:+ dquote +:+ ">REPORT</div>")
       true;
     Divider;
     Markdown powered_by true;
     Success success_banner].
Proof.
  assert (topic demo_widgets <> "") as Htopic by discriminate.
  split; [exact Htopic|].
  apply (success_rendering demo_ext demo_widgets fresh_process "REPORT" Htopic).
  - vm_compute. reflexivity.
  - discriminate.
Defined.


Lemma no_submission_after_earlier_failure_witness :
  composition_raises rejecting_crew_ext demo_handles "Quantum Computing Advances 2024"
    true false "Markdown" = Some (mkException "crew validation failed") /\
  run_log (run_research_pipeline rejecting_crew_ext demo_widgets
             "Quantum Computing Advances 2024" true false "Markdown") fresh_process
  = [Entered_run_research_pipeline "Quantum Computing Advances 2024" true false "Markdown";
     Error "Error: crew validation failed"].
Proof.
  split; [reflexivity|].
  apply (no_submission_after_earlier_failure rejecting_crew_ext demo_widgets fresh_process
           "Quantum Computing Advances 2024" true false "Markdown"
           (mkException "crew validation failed")).
  right. exists demo_handles. split; [vm_compute; reflexivity|reflexivity].
Defined.

Lemma submitted_tasks_owned_by_their_agents_witness :
  In (Kickoff demo_crew demo_inputs) (run_log demo_run fresh_process) /\
  exists ra wa r wt,
    agents demo_crew = [ra; wa] /\ tasks demo_crew = [r; wt] /\
    agent r = ra /\ agent wt = wa.
Proof.
  split; [exact demo_run_submits|].
  destruct (submitted_tasks_owned_by_their_agents demo_ext demo_widgets fresh_process
              "Quantum Computing Advances 2024" true false "Markdown" demo_crew demo_inputs
              demo_run_submits)
    as (ra & wa & r & wt & Hagents & Htasks & Hr & Hwt & _).
  exists ra, wa, r, wt. auto.
Defined.

Lemma research_description_decodes_flags_witness :
  research_description "Solid-state batteries" true false
  = research_description "Solid-state batteries" true false /\
  true = true /\ false = false.
Proof.
  split; [reflexivity|].
  apply (research_description_decodes_flags "Solid-state batteries" true false true false).
  reflexivity.
Defined.

Lemma writing_description_decodes_witness :
  In "Markdown" format_options /\
  "a report in HTML" = "a report in HTML" /\ "Markdown" = "Markdown".
Proof.
  assert (In "Markdown" format_options) as Hformat by (simpl; auto).
  split; [exact Hformat|].
  apply (writing_description_decodes (writer_agent demo_handles.1 demo_handles.2)
           (writer_agent demo_handles.1 demo_handles.2)
           (research_task (research_agent demo_handles.1 demo_handles.2) "a report in HTML"
              true true)
           (research_task (research_agent demo_handles.1 demo_handles.2) "a report in HTML"
              true true)
           "a report in HTML" "a report in HTML" "Markdown" "Markdown" Hformat Hformat).
  reflexivity.
Defined.

Lemma later_press_submits :
  In (Kickoff (composed_crew later_handles "Quantum Computing Advances 2024" true false
                 "Markdown") demo_inputs)
     (run_log (start_research demo_ext other_model_widgets)
        (perform_all demo_ext [Press_Start_Research demo_widgets] fresh_process)).
Proof. vm_compute. right. right. left. reflexivity. Defined.

Lemma submitted_handles_match_widgets_witness :
  In (Kickoff (composed_crew later_handles "Quantum Computing Advances 2024" true false
                 "Markdown") demo_inputs)
     (run_log (start_research demo_ext other_model_widgets)
        (perform_all demo_ext [Press_Start_Research demo_widgets] fresh_process)) /\
  llm_model (llm (writer_agent later_handles.1 later_handles.2)) = "o3-mini" /\
  llm_openai_api_key (llm (writer_agent later_handles.1 later_handles.2)) = "sk-demo" /\
  llm_temperature (llm (writer_agent later_handles.1 later_handles.2)) = (3 # 10)%Q /\
  map tool_api_key (tools (writer_agent later_handles.1 later_handles.2)) = ["serper-demo"].
Proof.
  split; [exact later_press_submits|].
  apply (submitted_handles_match_widgets demo_ext [Press_Start_Research demo_widgets]
           other_model_widgets _ demo_inputs (writer_agent later_handles.1 later_handles.2)
           later_press_submits).
  simpl. auto.
Defined.

Lemma second_press_submits :
  In (Kickoff (composed_crew demo_handles "Solid-state batteries" false true "HTML")
        {[ "topic" := "Solid-state batteries" ]})
     (run_log (start_research demo_ext second_widgets)
        (perform_all demo_ext [Press_Start_Research other_model_widgets]
           (snd (start_research demo_ext demo_widgets
                   (perform_all demo_ext [] fresh_process))))).
Proof. vm_compute. right. right. left. reflexivity. Defined.

Lemma presses_with_same_keys_share_agents_witness :
  widget_key second_widgets = widget_key demo_widgets /\
  agents (composed_crew demo_handles "Solid-state batteries" false true "HTML")
  = agents demo_crew.
Proof.
  split; [reflexivity|].
  apply (presses_with_same_keys_share_agents demo_ext []
           [Press_Start_Research other_model_widgets] demo_widgets second_widgets
           demo_crew _ demo_inputs {[ "topic" := "Solid-state batteries" ]} eq_refl
           demo_press_submits second_press_submits).
Defined.

Lemma other_model_press_submits :
  In (Kickoff (composed_crew later_handles "Quantum Computing Advances 2024" true false
                 "Markdown") demo_inputs)
     (run_log (start_research demo_ext other_model_widgets)
        (perform_all demo_ext []
           (snd (start_research demo_ext demo_widgets
                   (perform_all demo_ext [] fresh_process))))).
Proof. vm_compute. right. right. left. reflexivity. Defined.

Lemma presses_with_other_keys_share_no_handle_witness :
  widget_key other_model_widgets <> widget_key demo_widgets /\
  llm_id (llm (research_agent demo_handles.1 demo_handles.2))
  <> llm_id (llm (research_agent later_handles.1 later_handles.2)).
Proof.
  assert (widget_key other_model_widgets <> widget_key demo_widgets) as Hkeys
    by discriminate.
  split; [exact Hkeys|].
  apply (presses_with_other_keys_share_no_handle demo_ext [] [] demo_widgets
           other_model_widgets demo_crew _ demo_inputs demo_inputs
           (research_agent demo_handles.1 demo_handles.2)
           (research_agent later_handles.1 later_handles.2)
           Hkeys demo_press_submits other_model_press_submits).
  - simpl. auto.
  - simpl. auto.
Defined.

